(** * blog_with_users: the request handlers of main.py over the store

    A shallow embedding of [main.py] and [forms.py].  The three tables are
    lists of rows, the SQLAlchemy session is a working copy of the store that
    [db.session.commit()] publishes, the login session is the user id kept in
    the cookie, and every view function is a computation in a small
    state-and-exception monad.  The validators of wtforms and the password
    functions of werkzeug are library code: the handlers are stated over
    arbitrary ones. *)

From Stdlib Require Import List String Ascii Bool Arith PeanoNat NArith Lia.
Import ListNotations.
Local Open Scope string_scope.

(** ** The tables (classes [User], [BlogPost], [Comment]) *)

Module User.
Record t := mk {
  id : nat;
  email : string;
  password : string;
  name : string }.
End User.

Module BlogPost.
Record t := mk {
  id : nat;
  author_id : option nat;
  title : string;
  subtitle : string;
  date : string;
  body : string;
  img_url : string }.
End BlogPost.

Module Comment.
Record t := mk {
  id : nat;
  author_id : option nat;
  post_id : option nat;
  text : string }.
End Comment.

Record Store := mkStore {
  users : list User.t;
  blog_posts : list BlogPost.t;
  comments : list Comment.t }.

Definition empty_store : Store := mkStore [] [] [].

(** Primary keys are assigned by the store: one more than the largest key
    of the table (1 in an empty table). *)
Definition next_id (ids : list nat) : nat := S (list_max ids).

Fixpoint nodupb {A : Type} (eqb : A -> A -> bool) (l : list A) : bool :=
  match l with
  | [] => true
  | x :: r => negb (existsb (eqb x) r) && nodupb eqb r
  end.

(** What the schema has the store enforce: the primary keys, and
    [unique=True] on [User.email] and [BlogPost.title]. *)
Definition integrity_ok (s : Store) : bool :=
  nodupb Nat.eqb (map User.id (users s))
  && nodupb String.eqb (map User.email (users s))
  && nodupb Nat.eqb (map BlogPost.id (blog_posts s))
  && nodupb String.eqb (map BlogPost.title (blog_posts s))
  && nodupb Nat.eqb (map Comment.id (comments s)).

(** ** Requests and responses *)

Inductive Method := GET | HEAD | POST | PUT | PATCH | DELETE | OPTIONS.

Definition Method_eqb (a b : Method) : bool :=
  match a, b with
  | GET, GET | HEAD, HEAD | POST, POST | PUT, PUT
  | PATCH, PATCH | DELETE, DELETE | OPTIONS, OPTIONS => true
  | _, _ => false
  end.

(** What a handler reads from outside the store: the HTTP method, the
    submitted fields, whether the CSRF token of the form checks out, the salt
    [generate_password_hash] draws and the string [date.today()] formats to. *)
Record Request := mkRequest {
  method : Method;
  form : list (string * string);
  csrf_valid : bool;
  salt : string;
  today : string }.

Inductive Endpoint :=
| E_register
| E_login
| E_logout
| E_get_all_posts
| E_show_post (post_id : nat)
| E_add_new_post
| E_edit_post (post_id : nat)
| E_delete_post (post_id : nat)
| E_about
| E_contact.

(** forms.py: a form class is the list of its fields with their validators. *)
Inductive Validator := DataRequired | URL | Email.

Definition FormClass := list (string * list Validator).

Definition CreatePostForm : FormClass :=
  [ ("title", [DataRequired]);
    ("subtitle", [DataRequired]);
    ("img_url", [DataRequired; URL]);
    ("body", [DataRequired]);
    ("submit", []) ].

Definition CreateCommentForm : FormClass :=
  [ ("body", [DataRequired]);
    ("submit", []) ].

Definition UserForm : FormClass :=
  [ ("email", [DataRequired; Email]);
    ("password", [DataRequired]);
    ("name", [DataRequired]);
    ("submit", []) ].

(** A subclass that declares a field again replaces it in place. *)
Fixpoint override (fname : string) (vs : list Validator) (F : FormClass)
  : FormClass :=
  match F with
  | [] => []
  | (n, v) :: r =>
      if String.eqb n fname then (n, vs) :: r else (n, v) :: override fname vs r
  end.

(** [class LoginForm(UserForm): name = HiddenField("name")] *)
Definition LoginForm : FormClass := override "name" [] UserForm.

(** The keyword arguments of a [render_template] call. *)
Inductive Context :=
| ctx_none
| ctx_form (f : FormClass)
| ctx_all_posts (posts : list BlogPost.t)
| ctx_post (post : option BlogPost.t) (f : FormClass).

(** What a view hands back.  [render_template t c] records the call with
    the template and the values passed to it; what the template does with
    them is not part of main.py. *)
Inductive Response :=
| render_template (template : string) (context : Context)
| redirect (target : Endpoint)
| HTTPError (status : nat)
| OptionsResponse.

Definition status_code (r : Response) : nat :=
  match r with
  | render_template _ _ => 200
  | redirect _ => 302
  | HTTPError c => c
  | OptionsResponse => 200
  end.

(** ** The world a request runs in *)

Record World := mkWorld {
  committed : Store;          (* what the database holds *)
  working : Store;            (* the open transaction of [db.session] *)
  session : option nat;       (* the user id flask_login keeps in the cookie *)
  flashes : list string;      (* messages queued by [flash] *)
  commit_log : list Store }.  (* one snapshot per commit of this request *)

Definition set_working (s : Store) (w : World) : World :=
  mkWorld (committed w) s (session w) (flashes w) (commit_log w).

Definition set_session (u : option nat) (w : World) : World :=
  mkWorld (committed w) (working w) u (flashes w) (commit_log w).

Definition add_flash (msg : string) (w : World) : World :=
  mkWorld (committed w) (working w) (session w) (flashes w ++ [msg])
          (commit_log w).

(** A request starts on a fresh [db.session]: it sees the database. *)
Definition begin_request (w : World) : World :=
  mkWorld (committed w) (committed w) (session w) (flashes w) [].

(** At teardown the scoped session is removed: what was not committed is
    rolled back. *)
Definition teardown (w : World) : World :=
  mkWorld (committed w) (committed w) (session w) (flashes w) (commit_log w).

Definition initial_world : World :=
  mkWorld empty_store empty_store None [] [].

(** ** Exceptions and the handler monad *)

Inductive Exception :=
| AttributeError
| IntegrityError
| UnmappedInstanceError
| OverflowError
| HTTPException (code : nat).

Inductive Result (A : Type) :=
| Ok (a : A)
| Raise (e : Exception).
Arguments Ok {A} a.
Arguments Raise {A} e.

Definition M (A : Type) : Type := World -> Result A * World.

Definition ret {A} (a : A) : M A := fun w => (Ok a, w).

Definition bind {A B} (m : M A) (k : A -> M B) : M B :=
  fun w =>
    match m w with
    | (Ok a, w1) => k a w1
    | (Raise e, w1) => (Raise e, w1)
    end.

Definition raise {A} (e : Exception) : M A := fun w => (Raise e, w).

(** [try: m  except E: h] where [handler e] is [Some h] for the exceptions
    the clause names. *)
Definition try_except {A} (m : M A) (handler : Exception -> option (M A))
  : M A :=
  fun w =>
    match m w with
    | (Ok a, w1) => (Ok a, w1)
    | (Raise e, w1) =>
        match handler e with
        | Some h => h w1
        | None => (Raise e, w1)
        end
    end.

Declare Scope handler_scope.
Delimit Scope handler_scope with handler.
Notation "x <- m ;; k" := (bind m (fun x => k))
  (at level 61, m at next level, right associativity) : handler_scope.
Notation "m ;; k" := (bind m (fun _ => k))
  (at level 61, right associativity) : handler_scope.
Local Open Scope handler_scope.

Definition get_world : M World := fun w => (Ok w, w).
Definition modify (f : World -> World) : M unit := fun w => (Ok tt, f w).

(** A view function returns a response, or Python's [None]. *)
Definition View := Request -> M (option Response).

(** ** Stand-ins for the library functions, used to run the handlers on
    concrete requests *)

Fixpoint contains_char (c : ascii) (s : string) : bool :=
  match s with
  | EmptyString => false
  | String a r => Ascii.eqb a c || contains_char c r
  end.

Fixpoint after_char (c : ascii) (s : string) : string :=
  match s with
  | EmptyString => EmptyString
  | String a r => if Ascii.eqb a c then r else after_char c r
  end.

Definition sample_data_required (s : string) : bool := negb (String.eqb s "").
Definition sample_is_url (s : string) : bool :=
  String.prefix "http://" s || String.prefix "https://" s.
Definition sample_is_email (s : string) : bool := contains_char "@"%char s.
Definition sample_generate_password_hash (pw slt : string) : string :=
  slt ++ "$" ++ pw.
Definition sample_check_password_hash (pwhash pw : string) : bool :=
  String.eqb (after_char "$"%char pwhash) pw.

(** ** The login session (flask_login) *)

Definition find_user (uid : nat) (s : Store) : option User.t :=
  find (fun u => Nat.eqb (User.id u) uid) (users s).

Definition find_post (pid : nat) (s : Store) : option BlogPost.t :=
  find (fun p => Nat.eqb (BlogPost.id p) pid) (blog_posts s).

(** [User.query.get(user_id)], which is also [load_user] *)
Definition User_query_get (uid : nat) : M (option User.t) :=
  fun w => (Ok (find_user uid (working w)), w).

Definition load_user := User_query_get.

(** [current_user]: the user [load_user] finds for the id in the cookie, or
    the anonymous placeholder ([None]) when there is no id or no such user. *)
Definition current_user : M (option User.t) :=
  fun w =>
    match session w with
    | None => (Ok None, w)
    | Some uid => load_user uid w
    end.

Definition is_authenticated (cu : option User.t) : bool :=
  match cu with Some _ => true | None => false end.

(** [current_user.id]: the anonymous placeholder has no attribute [id]. *)
Definition current_user_id : M nat :=
  cu <- current_user ;;
  match cu with
  | Some u => ret (User.id u)
  | None => raise AttributeError
  end.

Definition login_user (u : User.t) : M unit :=
  modify (set_session (Some (User.id u))).

Definition logout_user : M unit := modify (set_session None).

Definition flash (msg : string) : M unit := modify (add_flash msg).

Definition abort {A} (code : nat) : M A := raise (HTTPException code).

(** ** The store session ([db.session]) and the queries *)

Definition find_by_email (e : string) (s : Store) : option User.t :=
  find (fun u => String.eqb (User.email u) e) (users s).

(** [User.query.filter_by(email=e).first()] *)
Definition User_query_filter_by_email_first (e : string) : M (option User.t) :=
  fun w => (Ok (find_by_email e (working w)), w).

(** [BlogPost.query.get(post_id)] once the id is bound as the parameter of
    the query: the row with that key, or [None].  The binding itself is
    [bind_key] below. *)
Definition BlogPost_query_get (pid : nat) : M (option BlogPost.t) :=
  fun w => (Ok (find_post pid (working w)), w).

(** The store keeps a key in a signed 64-bit integer: the ids that can be
    bound as the parameter of a query. *)
Definition storable (pid : nat) : bool :=
  N.ltb (N.of_nat pid) (2 ^ 63)%N.

Definition BlogPost_query_all : M (list BlogPost.t) :=
  fun w => (Ok (blog_posts (working w)), w).

Definition modify_working (f : Store -> Store) : M unit :=
  modify (fun w => set_working (f (working w)) w).

(** Inserting a row: the store assigns the key; the key the transient object
    carries is not used. *)
Definition store_add_user (u : User.t) (s : Store) : Store :=
  mkStore (users s ++ [User.mk (next_id (map User.id (users s)))
                               (User.email u) (User.password u) (User.name u)])
          (blog_posts s) (comments s).

Definition store_add_post (p : BlogPost.t) (s : Store) : Store :=
  mkStore (users s)
          (blog_posts s ++
             [BlogPost.mk (next_id (map BlogPost.id (blog_posts s)))
                (BlogPost.author_id p) (BlogPost.title p)
                (BlogPost.subtitle p) (BlogPost.date p) (BlogPost.body p)
                (BlogPost.img_url p)])
          (comments s).

Definition store_add_comment (c : Comment.t) (s : Store) : Store :=
  mkStore (users s) (blog_posts s)
          (comments s ++
             [Comment.mk (next_id (map Comment.id (comments s)))
                (Comment.author_id c) (Comment.post_id c) (Comment.text c)]).

(** [db.session.add(obj)]: the new row joins the open transaction and
    reaches the database at [commit].  The result is the key of the row,
    which stands for the object in the calls that follow. *)
Definition db_session_add_user (u : User.t) : M nat :=
  w <- get_world ;;
  modify_working (store_add_user u) ;;
  ret (next_id (map User.id (users (working w)))).

Definition db_session_add_post (p : BlogPost.t) : M nat :=
  w <- get_world ;;
  modify_working (store_add_post p) ;;
  ret (next_id (map BlogPost.id (blog_posts (working w)))).

Definition db_session_add_comment (c : Comment.t) : M nat :=
  w <- get_world ;;
  modify_working (store_add_comment c) ;;
  ret (next_id (map Comment.id (comments (working w)))).

Definition update_comment (cid : nat) (f : Comment.t -> Comment.t)
  (s : Store) : Store :=
  mkStore (users s) (blog_posts s)
          (map (fun c => if Nat.eqb (Comment.id c) cid then f c else c)
               (comments s)).

Definition update_post (pid : nat) (f : BlogPost.t -> BlogPost.t)
  (s : Store) : Store :=
  mkStore (users s)
          (map (fun p => if Nat.eqb (BlogPost.id p) pid then f p else p)
               (blog_posts s))
          (comments s).

Definition Comment_set_author (a : option nat) (c : Comment.t) : Comment.t :=
  Comment.mk (Comment.id c) a (Comment.post_id c) (Comment.text c).

Definition Comment_set_post (p : option nat) (c : Comment.t) : Comment.t :=
  Comment.mk (Comment.id c) (Comment.author_id c) p (Comment.text c).

(** [current_user.comments.append(comment)] for a comment already in the
    session: the relationship writes the foreign key [author_id].  The
    anonymous placeholder has no [comments]. *)
Definition User_comments_append (cu : option User.t) (cid : nat) : M unit :=
  match cu with
  | None => raise AttributeError
  | Some u =>
      modify_working
        (update_comment cid (Comment_set_author (Some (User.id u))))
  end.

(** [requested_post.comments.append(comment)]; [None] has no [comments]. *)
Definition BlogPost_comments_append (post : option BlogPost.t) (cid : nat)
  : M unit :=
  match post with
  | None => raise AttributeError
  | Some p =>
      modify_working
        (update_comment cid (Comment_set_post (Some (BlogPost.id p))))
  end.

(** [current_user.posts.append(new_post)] for a transient post. *)
Definition User_posts_append (cu : option User.t) (p : BlogPost.t)
  : M BlogPost.t :=
  match cu with
  | None => raise AttributeError
  | Some u =>
      ret (BlogPost.mk (BlogPost.id p) (Some (User.id u)) (BlogPost.title p)
             (BlogPost.subtitle p) (BlogPost.date p) (BlogPost.body p)
             (BlogPost.img_url p))
  end.

Definition detach_comment (pid : nat) (c : Comment.t) : Comment.t :=
  match Comment.post_id c with
  | Some q => if Nat.eqb q pid then Comment_set_post None c else c
  | None => c
  end.

(** Deleting the row of a post.  [BlogPost.comments] is a relationship
    without a delete cascade: the comments of the post stay and lose their
    [post_id]. *)
Definition store_delete_post (pid : nat) (s : Store) : Store :=
  mkStore (users s)
          (filter (fun q => negb (Nat.eqb (BlogPost.id q) pid)) (blog_posts s))
          (map (detach_comment pid) (comments s)).

(** [db.session.delete(post)]; [None] is not a mapped instance. *)
Definition db_session_delete (post : option BlogPost.t) : M unit :=
  match post with
  | None => raise UnmappedInstanceError
  | Some p => modify_working (store_delete_post (BlogPost.id p))
  end.

(** [db.session.commit()]: the transaction is published if the store accepts
    it, and rolled back with [IntegrityError] if a constraint is violated. *)
Definition db_session_commit : M unit :=
  fun w =>
    if integrity_ok (working w) then
      (Ok tt, mkWorld (working w) (working w) (session w) (flashes w)
                      (commit_log w ++ [working w]))
    else
      (Raise IntegrityError, set_working (committed w) w).

(** Reading a declared column of a post; [None] has no attributes. *)
Definition attr {A} (post : option BlogPost.t) (column : BlogPost.t -> A)
  : M A :=
  match post with
  | None => raise AttributeError
  | Some p => ret (column p)
  end.

(** [post.author]: [BlogPost] declares [author_id], and the backref from
    [User.posts] is named [user]; no attribute is named [author]. *)
Definition BlogPost_author (post : option BlogPost.t) : M string :=
  raise AttributeError.

(** [post.column = value] on a post loaded in the session *)
Definition BlogPost_set (post : option BlogPost.t)
  (f : BlogPost.t -> BlogPost.t) : M unit :=
  match post with
  | None => raise AttributeError
  | Some p => modify_working (update_post (BlogPost.id p) f)
  end.

(** ** Forms *)

Definition form_get (fname : string) (req : Request) : option string :=
  match find (fun kv => String.eqb (fst kv) fname) (form req) with
  | Some kv => Some (snd kv)
  | None => None
  end.

(** [form.data[name]] *)
Definition form_data (fname : string) (req : Request) : string :=
  match form_get fname req with
  | Some v => v
  | None => ""
  end.

Definition has_field (F : FormClass) (fname : string) : bool :=
  existsb (fun fv => String.eqb (fst fv) fname) F.

(** [form.<name>.data]: a form has the fields its class declares. *)
Definition field (F : FormClass) (fname : string) (req : Request) : M string :=
  if has_field F fname then ret (form_data fname req) else raise AttributeError.

Definition is_submitted (req : Request) : bool :=
  match method req with
  | POST | PUT | PATCH | DELETE => true
  | _ => false
  end.

(** A comment that carries both of its references. *)
Definition has_references (c : Comment.t) : bool :=
  match Comment.author_id c, Comment.post_id c with
  | Some _, Some _ => true
  | _, _ => false
  end.

(** A 404 answer or a server error (5xx). *)
Definition not_found_or_server_error (r : Response) : bool :=
  match r with
  | HTTPError c => Nat.eqb c 404 || Nat.leb 500 c
  | _ => false
  end.

(** ** A small store to run the handlers on: the administrator (the first
    user), a second user, one post and one comment on it *)

Definition admin_user : User.t := User.mk 1 "admin@x.com" "s1$root" "Admin".
Definition second_user : User.t := User.mk 2 "a@x.com" "s2$pw" "Alice".
Definition first_post : BlogPost.t :=
  BlogPost.mk 1 (Some 1) "Hello" "A first post" "January 01, 2024"
              "<p>text</p>" "http://x.com/img.png".
Definition first_comment : Comment.t := Comment.mk 1 (Some 2) (Some 1) "Nice".

Definition sample_store : Store :=
  mkStore [admin_user; second_user] [first_post] [first_comment].

(** The world between two requests, with the given cookie. *)
Definition world_of (s : Store) (cookie : option nat) : World :=
  mkWorld s s cookie [] [].

Definition request_of (m : Method) (fields : list (string * string))
  : Request :=
  mkRequest m fields true "salt1234" "March 05, 2024".

Definition post_fields (img : string) : list (string * string) :=
  [ ("title", "Second"); ("subtitle", "More"); ("img_url", img);
    ("body", "<p>more</p>") ].

Definition comment_fields : list (string * string) := [ ("body", "Hi") ].

Definition user_fields (e pw n : string) : list (string * string) :=
  [ ("email", e); ("password", pw); ("name", n) ].

Section Handlers.

(** The wtforms validators, on the submitted string of a field. *)
Variable data_required : string -> bool.
Variable is_url : string -> bool.
Variable is_email : string -> bool.

(** werkzeug: [generate_password_hash pw salt] with method pbkdf2:sha256 and
    a salt of length 8, and [check_password_hash pwhash pw]. *)
Variable generate_password_hash : string -> string -> string.
Variable check_password_hash : string -> string -> bool.

Definition run_validator (v : Validator) (data : option string) : bool :=
  match data with
  | None => false
  | Some s =>
      match v with
      | DataRequired => data_required s
      | URL => is_url s
      | Email => is_email s
      end
  end.

Definition field_ok (req : Request) (fv : string * list Validator) : bool :=
  forallb (fun v => run_validator v (form_get (fst fv) req)) (snd fv).

(** [form.validate()]: the CSRF token and every validator of every field *)
Definition validate (F : FormClass) (req : Request) : bool :=
  csrf_valid req && forallb (field_ok req) F.

Definition validate_on_submit (F : FormClass) (req : Request) : bool :=
  is_submitted req && validate F req.

(** ** The decorators *)

Definition admin_only (func : View) : View :=
  fun req =>
    try_except
      (uid <- current_user_id ;;
       if Nat.eqb uid 1 then func req else ret None)
      (fun e =>
         match e with
         | AttributeError => Some (abort 403)
         | _ => None
         end).

(** flask_login's [login_required]; no [login_view] is configured, so an
    anonymous visitor is answered 401. *)
Definition login_required (func : View) : View :=
  fun req =>
    cu <- current_user ;;
    if is_authenticated cu then func req else abort 401.

(** ** The view functions *)

Definition register : View :=
  fun req =>
    let form := UserForm in
    if Method_eqb (method req) POST && validate_on_submit form req then
      let pass_hash :=
        generate_password_hash (form_data "password" req) (salt req) in
      returned <-
        try_except
          (let user := User.mk 0 (form_data "email" req) pass_hash
                               (form_data "name" req) in
           db_session_add_user user ;;
           db_session_commit ;;
           ret None)
          (fun e =>
             match e with
             | IntegrityError =>
                 Some (flash "This email address is already used" ;;
                       ret (Some (redirect E_login)))
             | _ => None
             end) ;;
      match returned with
      | Some r => ret (Some r)
      | None => ret (Some (redirect E_get_all_posts))
      end
    else ret (Some (render_template "register.html" (ctx_form form))).

Definition login : View :=
  fun req =>
    let form := LoginForm in
    if Method_eqb (method req) POST then
      if validate_on_submit form req then
        user <- User_query_filter_by_email_first (form_data "email" req) ;;
        match user with
        | Some u =>
            if check_password_hash (User.password u)
                                   (form_data "password" req) then
              login_user u ;;
              ret (Some (redirect E_get_all_posts))
            else
              flash "Wrong password." ;;
              ret (Some (redirect E_login))
        | None =>
            flash "Email address not found." ;;
            ret (Some (redirect E_login))
        end
      else ret (Some (render_template "login.html" (ctx_form form)))
    else ret (Some (render_template "login.html" (ctx_form form))).

Definition logout : View :=
  fun _ =>
    logout_user ;;
    ret (Some (redirect E_get_all_posts)).

Definition get_all_posts : View :=
  fun _ =>
    posts <- BlogPost_query_all ;;
    ret (Some (render_template "index.html" (ctx_all_posts posts))).

Definition show_post (post_id : nat) : View :=
  fun req =>
    let comment_form := CreateCommentForm in
    requested_post <- BlogPost_query_get post_id ;;
    if Method_eqb (method req) POST
       && validate_on_submit comment_form req then
      cu <- current_user ;;
      if is_authenticated cu then
        body <- field comment_form "body" req ;;
        comment <- db_session_add_comment (Comment.mk 0 None None body) ;;
        User_comments_append cu comment ;;
        BlogPost_comments_append requested_post comment ;;
        db_session_commit ;;
        ret (Some (render_template "post.html"
                     (ctx_post requested_post comment_form)))
      else
        flash "Sorry, you need to log in first!" ;;
        ret (Some (redirect E_login))
    else
      ret (Some (render_template "post.html"
                   (ctx_post requested_post comment_form))).

Definition add_new_post : View :=
  fun req =>
    let form := CreatePostForm in
    if validate_on_submit form req then
      t <- field form "title" req ;;
      st <- field form "subtitle" req ;;
      b <- field form "body" req ;;
      iu <- field form "img_url" req ;;
      let new_post := BlogPost.mk 0 None t st (today req) b iu in
      cu <- current_user ;;
      new_post <- User_posts_append cu new_post ;;
      db_session_add_post new_post ;;
      db_session_commit ;;
      ret (Some (redirect E_get_all_posts))
    else ret (Some (render_template "make-post.html" (ctx_form form))).

Definition set_title (v : string) (p : BlogPost.t) : BlogPost.t :=
  BlogPost.mk (BlogPost.id p) (BlogPost.author_id p) v (BlogPost.subtitle p)
              (BlogPost.date p) (BlogPost.body p) (BlogPost.img_url p).

Definition set_subtitle (v : string) (p : BlogPost.t) : BlogPost.t :=
  BlogPost.mk (BlogPost.id p) (BlogPost.author_id p) (BlogPost.title p) v
              (BlogPost.date p) (BlogPost.body p) (BlogPost.img_url p).

Definition set_img_url (v : string) (p : BlogPost.t) : BlogPost.t :=
  BlogPost.mk (BlogPost.id p) (BlogPost.author_id p) (BlogPost.title p)
              (BlogPost.subtitle p) (BlogPost.date p) (BlogPost.body p) v.

Definition set_body (v : string) (p : BlogPost.t) : BlogPost.t :=
  BlogPost.mk (BlogPost.id p) (BlogPost.author_id p) (BlogPost.title p)
              (BlogPost.subtitle p) (BlogPost.date p) v (BlogPost.img_url p).

Definition edit_post (post_id : nat) : View :=
  fun req =>
    post <- BlogPost_query_get post_id ;;
    (* the keyword arguments of CreatePostForm(...), left to right *)
    _ <- attr post BlogPost.title ;;
    _ <- attr post BlogPost.subtitle ;;
    _ <- attr post BlogPost.img_url ;;
    _ <- BlogPost_author post ;;
    _ <- attr post BlogPost.body ;;
    let edit_form := CreatePostForm in
    if validate_on_submit edit_form req then
      t <- field edit_form "title" req ;;
      BlogPost_set post (set_title t) ;;
      st <- field edit_form "subtitle" req ;;
      BlogPost_set post (set_subtitle st) ;;
      iu <- field edit_form "img_url" req ;;
      BlogPost_set post (set_img_url iu) ;;
      _ <- field edit_form "author" req ;;
      b <- field edit_form "body" req ;;
      BlogPost_set post (set_body b) ;;
      db_session_commit ;;
      pid <- attr post BlogPost.id ;;
      ret (Some (redirect (E_show_post pid)))
    else ret (Some (render_template "make-post.html" (ctx_form edit_form))).

Definition delete_post (post_id : nat) : View :=
  fun _ =>
    post_to_delete <- BlogPost_query_get post_id ;;
    db_session_delete post_to_delete ;;
    db_session_commit ;;
    ret (Some (redirect E_get_all_posts)).

Definition about : View :=
  fun _ => ret (Some (render_template "about.html" ctx_none)).

Definition contact : View :=
  fun _ => ret (Some (render_template "contact.html" ctx_none)).

(** ** Routing ([@app.route]) and the request cycle *)

Definition route_methods (ep : Endpoint) : list Method :=
  match ep with
  | E_register | E_login | E_show_post _ | E_add_new_post => [GET; POST]
  | E_logout | E_get_all_posts | E_edit_post _ | E_delete_post _
  | E_about | E_contact => [GET]
  end.

Definition mem_method (m : Method) (l : list Method) : bool :=
  existsb (Method_eqb m) l.

(** A rule that takes GET also takes HEAD, and every rule takes OPTIONS. *)
Definition method_allowed (ep : Endpoint) (m : Method) : bool :=
  match m with
  | OPTIONS => true
  | HEAD => mem_method HEAD (route_methods ep) || mem_method GET (route_methods ep)
  | _ => mem_method m (route_methods ep)
  end.

Definition view_function (ep : Endpoint) : View :=
  match ep with
  | E_register => register
  | E_login => login
  | E_logout => login_required logout
  | E_get_all_posts => get_all_posts
  | E_show_post pid => show_post pid
  | E_add_new_post => admin_only add_new_post
  | E_edit_post pid => admin_only (edit_post pid)
  | E_delete_post pid => admin_only (delete_post pid)
  | E_about => about
  | E_contact => contact
  end.

(** What the client gets for what the view did: its response; the error
    page of an [abort]; 500 for any other exception, and for a view that
    returned [None]. *)
Definition make_response (r : Result (option Response)) : Response :=
  match r with
  | Ok (Some resp) => resp
  | Ok None => HTTPError 500
  | Raise (HTTPException code) => HTTPError code
  | Raise _ => HTTPError 500
  end.

(** One request: the session is opened, the method is matched against the
    rule, the view runs and the session is rolled back.  The post id of a
    route is taken as one the store can hold; [serve] below adds the binding
    of the id and agrees with this function on those ids. *)
Definition handle_request (ep : Endpoint) (req : Request) (w : World)
  : Response * World :=
  let w0 := begin_request w in
  if negb (method_allowed ep (method req)) then (HTTPError 405, w0)
  else
    match method req with
    | OPTIONS => (OptionsResponse, w0)
    | _ =>
        let (r, w1) := view_function ep req w0 in
        (make_response r, teardown w1)
    end.

(** The number of commits of the request that produced [w]. *)
Definition commits (w : World) : nat := List.length (commit_log w).

(** The visitor a request of world [w] runs as: what [current_user] will
    load, [None] for the anonymous placeholder. *)
Definition visitor (w : World) : option User.t :=
  match session w with
  | None => None
  | Some uid => find_user uid (committed w)
  end.

Definition count_email (e : string) (s : Store) : nat :=
  List.length (filter (fun u => String.eqb (User.email u) e) (users s)).

Definition has_email (e : string) (s : Store) : bool :=
  existsb (fun u => String.eqb (User.email u) e) (users s).

(** The routes behind [@admin_only], with the view each one wraps. *)
Definition gated_view (ep : Endpoint) : option View :=
  match ep with
  | E_add_new_post => Some add_new_post
  | E_edit_post pid => Some (edit_post pid)
  | E_delete_post pid => Some (delete_post pid)
  | _ => None
  end.

(** A request the router hands to the view function. *)
Definition reaches_view (ep : Endpoint) (req : Request) : bool :=
  method_allowed ep (method req) && negb (Method_eqb (method req) OPTIONS).

(** The store after the three steps of the comment path: the row is added
    with a text only, then the two relationships write its references. *)
Definition comment_steps (u : User.t) (p : BlogPost.t) (body : string)
  (s : Store) : Store * Store * Store :=
  let cid := next_id (map Comment.id (comments s)) in
  let s1 := store_add_comment (Comment.mk 0 None None body) s in
  let s2 := update_comment cid (Comment_set_author (Some (User.id u))) s1 in
  let s3 := update_comment cid (Comment_set_post (Some (BlogPost.id p))) s2 in
  (s1, s2, s3).

(** [m] adds at most [n] commits to the log. *)
Definition commits_within {A} (n : nat) (m : M A) : Prop :=
  forall w, commits (snd (m w)) <= commits w + n.

(** The form each route validates. *)
Definition form_of (ep : Endpoint) : option FormClass :=
  match ep with
  | E_register => Some UserForm
  | E_login => Some LoginForm
  | E_show_post _ => Some CreateCommentForm
  | E_add_new_post => Some CreatePostForm
  | E_edit_post _ => Some CreatePostForm
  | _ => None
  end.

(** [m] keeps the property [I] of the world, whatever it returns or
    raises. *)
Definition preserves {A} (I : World -> Prop) (m : M A) : Prop :=
  forall w, I w -> I (snd (m w)).

(** The database satisfies the constraints of the schema. *)
Definition store_inv (w : World) : Prop := integrity_ok (committed w) = true.

(** The worlds the application gets to, request after request, from the
    empty database and no cookie. *)
Inductive reachable : World -> Prop :=
| reachable_initial : reachable initial_world
| reachable_request (ep : Endpoint) (req : Request) (w : World) :
    reachable w -> reachable (snd (handle_request ep req w)).

(** The id a route hands to its view. *)
Definition route_key (ep : Endpoint) : option nat :=
  match ep with
  | E_show_post pid | E_edit_post pid | E_delete_post pid => Some pid
  | _ => None
  end.

(** [<int:post_id>] accepts every decimal integer, and
    [BlogPost.query.get(post_id)] binds it as a 64-bit parameter: an id that
    does not fit raises [OverflowError] before the store is asked.  In
    [show_post], [edit_post] and [delete_post] the call is the first
    statement that acts on the world, so the view with the binding is the
    view behind this check. *)
Definition bind_key (pid : nat) (v : View) : View :=
  fun req => if storable pid then v req else raise OverflowError.

Definition view_function_bound (ep : Endpoint) : View :=
  match ep with
  | E_show_post pid => bind_key pid (show_post pid)
  | E_edit_post pid => admin_only (bind_key pid (edit_post pid))
  | E_delete_post pid => admin_only (bind_key pid (delete_post pid))
  | _ => view_function ep
  end.

(** The request cycle with the binding of the id.  For the ids the store
    can hold it is [handle_request] (lemma [serve_storable]). *)
Definition serve (ep : Endpoint) (req : Request) (w : World)
  : Response * World :=
  let w0 := begin_request w in
  if negb (method_allowed ep (method req)) then (HTTPError 405, w0)
  else
    match method req with
    | OPTIONS => (OptionsResponse, w0)
    | _ =>
        let (r, w1) := view_function_bound ep req w0 in
        (make_response r, teardown w1)
    end.

(** ** Lists, keys and the integrity check *)

Lemma existsb_app_one {A} (f : A -> bool) (l : list A) (x : A) :
  existsb f (l ++ [x]) = existsb f l || f x.
Proof.
  rewrite existsb_app. simpl. now rewrite orb_false_r.
Qed.

Lemma nodupb_app_one {A} (eqb : A -> A -> bool) (l : list A) (x : A) :
  (forall a b, eqb a b = eqb b a) ->
  nodupb eqb (l ++ [x]) = nodupb eqb l && negb (existsb (eqb x) l).
Proof.
  intros sym. induction l as [|a l IH]; simpl.
  - reflexivity.
  - rewrite existsb_app_one, IH, negb_orb, (sym x a).
    destruct (existsb (eqb a) l), (eqb a x), (nodupb eqb l),
      (existsb (eqb x) l); reflexivity.
Qed.

Lemma nodupb_nat_NoDup (l : list nat) :
  nodupb Nat.eqb l = true <-> NoDup l.
Proof.
  induction l as [|a l IH]; simpl.
  - split; [constructor | reflexivity].
  - rewrite andb_true_iff, negb_true_iff, IH. split.
    + intros [Hn Hd]. constructor; [|exact Hd].
      intros Hin. assert (existsb (Nat.eqb a) l = true) as E.
      { apply existsb_exists. exists a. split; [exact Hin|apply Nat.eqb_refl]. }
      congruence.
    + intros Hd. inversion Hd as [|? ? Hn Hd']; subst. split; [|exact Hd'].
      destruct (existsb (Nat.eqb a) l) eqn:E; [|reflexivity].
      apply existsb_exists in E. destruct E as [b [Hb Hab]].
      apply Nat.eqb_eq in Hab. subst b. contradiction.
Qed.

Lemma next_id_above (l : list nat) (k : nat) : In k l -> k < next_id l.
Proof.
  intros Hin. unfold next_id.
  pose proof (list_max_le l (list_max l)) as [H _].
  specialize (H (Nat.le_refl _)). rewrite Forall_forall in H.
  specialize (H k Hin). lia.
Qed.

Lemma next_id_fresh (l : list nat) :
  existsb (Nat.eqb (next_id l)) l = false.
Proof.
  destruct (existsb (Nat.eqb (next_id l)) l) eqn:E; [|reflexivity].
  apply existsb_exists in E. destruct E as [k [Hin Hk]].
  apply Nat.eqb_eq in Hk. apply next_id_above in Hin. lia.
Qed.

Lemma existsb_map {A B} (g : A -> B) (f : B -> bool) (l : list A) :
  existsb f (map g l) = existsb (fun a => f (g a)) l.
Proof.
  induction l as [|a l IH]; simpl; [reflexivity|now rewrite IH].
Qed.

Lemma find_existsb {A} (f : A -> bool) (l : list A) :
  existsb f l = match find f l with Some _ => true | None => false end.
Proof.
  induction l as [|a l IH]; simpl; [reflexivity|].
  destruct (f a); [reflexivity|exact IH].
Qed.

Lemma find_post_id (pid : nat) (s : Store) (p : BlogPost.t) :
  find_post pid s = Some p -> BlogPost.id p = pid /\ In p (blog_posts s).
Proof.
  unfold find_post. intros H. apply find_some in H. destruct H as [Hin Hid].
  apply Nat.eqb_eq in Hid. now split.
Qed.

(** With unique emails, an email that occurs occurs once. *)
Lemma count_email_unique (e : string) (s : Store) :
  nodupb String.eqb (map User.email (users s)) = true ->
  has_email e s = true ->
  count_email e s = 1.
Proof.
  unfold has_email, count_email. induction (users s) as [|u l IH]; simpl.
  - discriminate.
  - rewrite andb_true_iff, negb_true_iff. intros [Hn Hd] Hex.
    destruct (String.eqb (User.email u) e) eqn:E.
    + apply String.eqb_eq in E. subst e. simpl. f_equal.
      rewrite existsb_map in Hn.
      assert (filter (fun u0 => String.eqb (User.email u0) (User.email u)) l
              = []) as ->; [|reflexivity].
      clear IH Hd Hex. induction l as [|v l IH]; simpl in *; [reflexivity|].
      apply orb_false_iff in Hn. destruct Hn as [Hv Hl].
      rewrite String.eqb_sym, Hv. now apply IH.
    + simpl in Hex. now apply IH.
Qed.

Lemma count_email_absent (e : string) (s : Store) :
  has_email e s = false -> count_email e s = 0.
Proof.
  unfold has_email, count_email. induction (users s) as [|u l IH]; simpl.
  - reflexivity.
  - intros H. apply orb_false_iff in H. destruct H as [Hu Hl].
    rewrite Hu. now apply IH.
Qed.

(** ** The request cycle *)

Ltac unfold_monad :=
  cbv beta iota delta
    [bind ret raise try_except modify modify_working get_world flash abort
     current_user current_user_id load_user User_query_get login_user
     logout_user User_query_filter_by_email_first BlogPost_query_get
     BlogPost_query_all].

Lemma current_user_begin (w : World) :
  current_user (begin_request w) = (Ok (visitor w), begin_request w).
Proof.
  unfold current_user, visitor, load_user, User_query_get. simpl.
  destruct (session w); reflexivity.
Qed.

Lemma handle_request_view (ep : Endpoint) (req : Request) (w : World) :
  reaches_view ep req = true ->
  handle_request ep req w =
    (make_response (fst (view_function ep req (begin_request w))),
     teardown (snd (view_function ep req (begin_request w)))).
Proof.
  unfold reaches_view, handle_request. intros H.
  apply andb_true_iff in H. destruct H as [Ha Ho]. rewrite Ha. simpl.
  destruct (view_function ep req (begin_request w)) as [r w1].
  destruct (method req); simpl in Ho; try discriminate; reflexivity.
Qed.

Lemma handle_request_405 (ep : Endpoint) (req : Request) (w : World) :
  method_allowed ep (method req) = false ->
  handle_request ep req w = (HTTPError 405, begin_request w).
Proof.
  unfold handle_request. intros ->. reflexivity.
Qed.

(** ** The admin gate *)

(** The gate hands the request to the view when the visitor has id 1; an
    [AttributeError] the view raises is then caught by the same clause. *)
Lemma admin_only_admin (func : View) (req : Request) (w : World) (u : User.t) :
  visitor w = Some u -> User.id u = 1 ->
  admin_only func req (begin_request w) =
    match func req (begin_request w) with
    | (Raise AttributeError, w1) => (Raise (HTTPException 403), w1)
    | other => other
    end.
Proof.
  intros Hv Hid. unfold admin_only, try_except, current_user_id, bind.
  rewrite current_user_begin, Hv. unfold ret at 1. rewrite Hid. simpl.
  destruct (func req (begin_request w)) as [[a|e] w1]; [reflexivity|].
  destruct e; reflexivity.
Qed.

(** Without a logged-in user the gate aborts with 403 and the view is not
    called. *)
Lemma admin_only_anonymous (func : View) (req : Request) (w : World) :
  visitor w = None ->
  admin_only func req (begin_request w) =
    (Raise (HTTPException 403), begin_request w).
Proof.
  intros Hv. unfold admin_only, try_except, current_user_id, bind.
  rewrite current_user_begin, Hv. reflexivity.
Qed.

(** For a logged-in user other than user 1 the gate falls off the end of
    [inner]: it returns [None], the view is not called. *)
Lemma admin_only_other_user (func : View) (req : Request) (w : World)
  (u : User.t) :
  visitor w = Some u -> User.id u <> 1 ->
  admin_only func req (begin_request w) = (Ok None, begin_request w).
Proof.
  intros Hv Hid. unfold admin_only, try_except, current_user_id, bind.
  rewrite current_user_begin, Hv. unfold ret at 1.
  apply Nat.eqb_neq in Hid. rewrite Hid. reflexivity.
Qed.

Lemma gated_view_function (ep : Endpoint) (v : View) :
  gated_view ep = Some v -> view_function ep = admin_only v.
Proof.
  destruct ep; simpl; intros H; inversion H; reflexivity.
Qed.


(** C1 (what the code does where the claim fails).  On each gated route
    (create, edit, delete post), a request the router hands to the view, made
    in the session of a logged-in user whose id is not 1, is answered 500
    Internal Server Error and not 403 Forbidden: [inner] has no branch for
    this visitor and returns [None].  The view is not called and the world
    is unchanged. *)
Theorem admin_only_non_admin_gets_500 (ep : Endpoint) (v : View)
  (req : Request) (w : World) (u : User.t) :
  gated_view ep = Some v -> reaches_view ep req = true ->
  visitor w = Some u -> User.id u <> 1 ->
  admin_only v req (begin_request w) = (Ok None, begin_request w)
  /\ handle_request ep req w = (HTTPError 500, begin_request w)
  /\ fst (handle_request ep req w) <> HTTPError 403.
Proof.
  intros Hg Hr Hv Hid.
  pose proof (admin_only_other_user v req w u Hv Hid) as Hgate.
  assert (handle_request ep req w = (HTTPError 500, begin_request w)) as Hresp.
  { rewrite handle_request_view by exact Hr.
    rewrite (gated_view_function _ _ Hg), Hgate. reflexivity. }
  split; [exact Hgate|]. split; [exact Hresp|].
  rewrite Hresp. discriminate.
Qed.

(** ** Registration *)

Lemma existsb_ext {A} (f g : A -> bool) (l : list A) :
  (forall a, f a = g a) -> existsb f l = existsb g l.
Proof.
  intros E. induction l as [|a l IH]; simpl; [reflexivity|].
  now rewrite E, IH.
Qed.

Lemma has_email_map (e : string) (s : Store) :
  existsb (String.eqb e) (map User.email (users s)) = has_email e s.
Proof.
  unfold has_email. rewrite existsb_map. apply existsb_ext.
  intros u. apply String.eqb_sym.
Qed.

(** The store accepts a new user exactly when the email is not taken. *)
Lemma integrity_add_user (u : User.t) (s : Store) :
  integrity_ok (store_add_user u s)
  = integrity_ok s && negb (has_email (User.email u) s).
Proof.
  unfold integrity_ok, store_add_user. simpl. rewrite !map_app. simpl.
  rewrite (nodupb_app_one Nat.eqb) by (intros; apply Nat.eqb_sym).
  rewrite (nodupb_app_one String.eqb) by (intros; apply String.eqb_sym).
  rewrite next_id_fresh, has_email_map. simpl.
  destruct (nodupb Nat.eqb (map User.id (users s))),
    (nodupb String.eqb (map User.email (users s))),
    (has_email (User.email u) s),
    (nodupb Nat.eqb (map BlogPost.id (blog_posts s))),
    (nodupb String.eqb (map BlogPost.title (blog_posts s))),
    (nodupb Nat.eqb (map Comment.id (comments s))); reflexivity.
Qed.

Lemma POST_to_register_reaches_view (req : Request) :
  method req = POST -> reaches_view E_register req = true.
Proof. unfold reaches_view. intros ->. reflexivity. Qed.

Lemma validate_on_submit_POST (F : FormClass) (req : Request) :
  method req = POST -> validate_on_submit F req = validate F req.
Proof. unfold validate_on_submit, is_submitted. intros ->. reflexivity. Qed.

(** What [register] does with a submission the form accepts. *)
Lemma register_accepted (req : Request) (w : World) :
  method req = POST -> validate UserForm req = true ->
  let user := User.mk 0 (form_data "email" req)
                (generate_password_hash (form_data "password" req) (salt req))
                (form_data "name" req) in
  let s' := store_add_user user (committed w) in
  register req (begin_request w) =
    if integrity_ok s' then
      (Ok (Some (redirect E_get_all_posts)),
       mkWorld s' s' (session w) (flashes w) [s'])
    else
      (Ok (Some (redirect E_login)),
       mkWorld (committed w) (committed w) (session w)
               (flashes w ++ ["This email address is already used"]) []).
Proof.
  intros Hm Hv. unfold register.
  rewrite (validate_on_submit_POST _ _ Hm), Hv, Hm. simpl.
  unfold db_session_add_user, db_session_commit. unfold_monad. simpl.
  unfold store_add_user. simpl.
  match goal with |- context [integrity_ok ?s] => destruct (integrity_ok s) end;
    reflexivity.
Qed.

Lemma count_email_add_user (e : string) (u : User.t) (s : Store) :
  count_email e (store_add_user u s)
  = count_email e s + (if String.eqb (User.email u) e then 1 else 0).
Proof.
  unfold count_email, store_add_user. simpl.
  rewrite filter_app, length_app. simpl.
  destruct (String.eqb (User.email u) e); reflexivity.
Qed.

(** C2.  A registration is a POST of the register form that the form's
    validation accepts, on a store that satisfies its uniqueness constraints.
    If the store already holds a user with the submitted email, the answer is
    the duplicate-email outcome (the flash message "This email address is
    already used" and a redirect to login), the store is what it was, nothing
    stays pending, and the store still holds exactly one user with that email.
    If the email is fresh, exactly one user is appended, whose password field
    is [generate_password_hash] of the submitted password with the salt drawn,
    and the other tables are unchanged. *)
Theorem register_duplicate_email_or_new_user (req : Request) (w : World) :
  method req = POST ->
  validate UserForm req = true ->
  integrity_ok (committed w) = true ->
  let e := form_data "email" req in
  let new_user :=
    User.mk (next_id (map User.id (users (committed w)))) e
      (generate_password_hash (form_data "password" req) (salt req))
      (form_data "name" req) in
  let resp := fst (handle_request E_register req w) in
  let w' := snd (handle_request E_register req w) in
  (has_email e (committed w) = true ->
     resp = redirect E_login
     /\ flashes w' = (flashes w ++ ["This email address is already used"])%list
     /\ committed w' = committed w
     /\ working w' = committed w
     /\ commits w' = 0
     /\ count_email e (committed w') = 1)
  /\
  (has_email e (committed w) = false ->
     resp = redirect E_get_all_posts
     /\ users (committed w') = (users (committed w) ++ [new_user])%list
     /\ blog_posts (committed w') = blog_posts (committed w)
     /\ comments (committed w') = comments (committed w)
     /\ flashes w' = flashes w
     /\ count_email e (committed w') = 1).
Proof.
  intros Hm Hv Hok e new_user resp w'. subst resp w'.
  rewrite (handle_request_view _ _ _ (POST_to_register_reaches_view _ Hm)).
  simpl view_function. rewrite (register_accepted _ _ Hm Hv). cbv zeta.
  rewrite integrity_add_user, Hok. simpl User.email. fold e.
  split; intros He; rewrite He; simpl.
  - repeat split. apply count_email_unique; [|exact He].
    unfold integrity_ok in Hok. rewrite !andb_true_iff in Hok. tauto.
  - repeat split.
    rewrite count_email_add_user. simpl User.email.
    rewrite (count_email_absent _ _ He), String.eqb_refl. reflexivity.
Qed.

(** ** Login *)

Lemma find_user_unique (u : User.t) (s : Store) :
  nodupb Nat.eqb (map User.id (users s)) = true ->
  In u (users s) ->
  find_user (User.id u) s = Some u.
Proof.
  unfold find_user. induction (users s) as [|v l IH]; simpl.
  - contradiction.
  - rewrite andb_true_iff, negb_true_iff. intros [Hn Hd] [->|Hin].
    + now rewrite Nat.eqb_refl.
    + destruct (Nat.eqb (User.id v) (User.id u)) eqn:E.
      * exfalso. apply Nat.eqb_eq in E. rewrite existsb_map in Hn.
        assert (existsb (fun a => Nat.eqb (User.id v) (User.id a)) l = true)
          as C; [|congruence].
        apply existsb_exists. exists u. split; [exact Hin|].
        now apply Nat.eqb_eq.
      * now apply IH.
Qed.

Lemma find_by_email_some (e : string) (s : Store) (u : User.t) :
  find_by_email e s = Some u -> User.email u = e /\ In u (users s).
Proof.
  unfold find_by_email. intros H. apply find_some in H.
  destruct H as [Hin He]. apply String.eqb_eq in He. now split.
Qed.

Lemma POST_to_login_reaches_view (req : Request) :
  method req = POST -> reaches_view E_login req = true.
Proof. unfold reaches_view. intros ->. reflexivity. Qed.

(** What [login] does with a submission the form accepts. *)
Lemma login_accepted (req : Request) (w : World) :
  method req = POST -> validate LoginForm req = true ->
  login req (begin_request w) =
    match find_by_email (form_data "email" req) (committed w) with
    | Some u =>
        if check_password_hash (User.password u) (form_data "password" req)
        then (Ok (Some (redirect E_get_all_posts)),
              set_session (Some (User.id u)) (begin_request w))
        else (Ok (Some (redirect E_login)),
              add_flash "Wrong password." (begin_request w))
    | None => (Ok (Some (redirect E_login)),
               add_flash "Email address not found." (begin_request w))
    end.
Proof.
  intros Hm Hv. unfold login.
  rewrite (validate_on_submit_POST _ _ Hm), Hv, Hm.
  change (Method_eqb POST POST) with true. cbv iota.
  unfold_monad. change (working (begin_request w)) with (committed w).
  destruct (find_by_email (form_data "email" req) (committed w)) as [u|];
    [|reflexivity].
  destruct (check_password_hash (User.password u) (form_data "password" req));
    reflexivity.
Qed.

(** A request the form does not accept leaves the login session alone. *)
Lemma login_not_accepted (req : Request) (w : World) :
  Method_eqb (method req) POST && validate LoginForm req = false ->
  login req (begin_request w) =
    (Ok (Some (render_template "login.html" (ctx_form LoginForm))),
     begin_request w).
Proof.
  intros H. unfold login, validate_on_submit, is_submitted.
  destruct (method req); simpl in *; try reflexivity.
  rewrite H. reflexivity.
Qed.

(** C3.  A login submission is a POST of the login form that the form's
    validation accepts.  If no user has the submitted email the answer is the
    unknown-email outcome (flash "Email address not found.", redirect to
    login); if a user has it and the password does not match the stored hash
    the answer is the invalid-credentials outcome (flash "Wrong password.",
    redirect to login); in both cases the login session is what it was.  Only
    when the user exists and the password matches does [login_user] bind the
    session to that user.  The store is never written. *)
Theorem login_three_outcomes (req : Request) (w : World) :
  method req = POST ->
  validate LoginForm req = true ->
  let e := form_data "email" req in
  let pw := form_data "password" req in
  let resp := fst (handle_request E_login req w) in
  let w' := snd (handle_request E_login req w) in
  committed w' = committed w
  /\ (find_by_email e (committed w) = None ->
        resp = redirect E_login
        /\ flashes w' = (flashes w ++ ["Email address not found."])%list
        /\ session w' = session w)
  /\ (forall u, find_by_email e (committed w) = Some u ->
        check_password_hash (User.password u) pw = false ->
        resp = redirect E_login
        /\ flashes w' = (flashes w ++ ["Wrong password."])%list
        /\ session w' = session w)
  /\ (forall u, find_by_email e (committed w) = Some u ->
        check_password_hash (User.password u) pw = true ->
        resp = redirect E_get_all_posts
        /\ flashes w' = flashes w
        /\ session w' = Some (User.id u)
        /\ (integrity_ok (committed w) = true -> visitor w' = Some u)).
Proof.
  intros Hm Hv e pw resp w'. subst resp w'.
  rewrite (handle_request_view _ _ _ (POST_to_login_reaches_view _ Hm)).
  simpl view_function. rewrite (login_accepted _ _ Hm Hv). fold e pw.
  destruct (find_by_email e (committed w)) as [u|] eqn:Hf.
  - destruct (check_password_hash (User.password u) pw) eqn:Hc; simpl.
    + split; [reflexivity|]. split; [discriminate|].
      split; intros u' Hu' Hc'; inversion Hu'; subst u'; [congruence|].
      repeat split. intros Hok. unfold visitor. simpl.
      apply find_by_email_some in Hf. destruct Hf as [_ Hin].
      apply find_user_unique; [|exact Hin].
      unfold integrity_ok in Hok. rewrite !andb_true_iff in Hok. tauto.
    + split; [reflexivity|]. split; [discriminate|].
      split; intros u' Hu' Hc'; inversion Hu'; subst u'; [|congruence].
      repeat split.
  - simpl. split; [reflexivity|]. split; [intros _; repeat split|].
    split; intros u' Hu'; discriminate.
Qed.

(** The login session changes on the login route only when the form accepts
    the submission, a user has the email and the password matches. *)
Lemma login_session_only_on_match (req : Request) (w : World) :
  session (snd (handle_request E_login req w)) <> session w ->
  method req = POST /\ validate LoginForm req = true
  /\ exists u, find_by_email (form_data "email" req) (committed w) = Some u
       /\ check_password_hash (User.password u) (form_data "password" req)
          = true.
Proof.
  intros Hs.
  destruct (Method_eqb (method req) POST && validate LoginForm req) eqn:Hacc.
  - apply andb_true_iff in Hacc. destruct Hacc as [Hm Hv].
    assert (method req = POST) as Hm' by (destruct (method req); easy).
    split; [exact Hm'|]. split; [exact Hv|].
    rewrite (handle_request_view _ _ _ (POST_to_login_reaches_view _ Hm')) in Hs.
    simpl view_function in Hs. rewrite (login_accepted _ _ Hm' Hv) in Hs.
    destruct (find_by_email (form_data "email" req) (committed w)) as [u|];
      [|now elim Hs].
    destruct (check_password_hash (User.password u) (form_data "password" req))
      eqn:Hc; [|now elim Hs].
    exists u. now split.
  - exfalso. apply Hs. unfold handle_request.
    destruct (negb (method_allowed E_login (method req))) eqn:Ha;
      [reflexivity|].
    simpl view_function. rewrite (login_not_accepted _ _ Hacc).
    destruct (method req); reflexivity.
Qed.

(** ** Viewing a post and commenting *)

Lemma POST_to_show_post_reaches_view (pid : nat) (req : Request) :
  method req = POST -> reaches_view (E_show_post pid) req = true.
Proof. unfold reaches_view. intros ->. reflexivity. Qed.

Lemma show_post_not_accepted (pid : nat) (req : Request) (w : World) :
  Method_eqb (method req) POST && validate_on_submit CreateCommentForm req
  = false ->
  show_post pid req (begin_request w) =
    (Ok (Some (render_template "post.html"
                 (ctx_post (find_post pid (committed w)) CreateCommentForm))),
     begin_request w).
Proof.
  intros H. unfold show_post. rewrite H. reflexivity.
Qed.

(** An accepted comment of an anonymous visitor: a flash message and a
    redirect to login, whether the post exists or not. *)
Lemma show_post_anonymous (pid : nat) (req : Request) (w : World) :
  method req = POST -> validate CreateCommentForm req = true ->
  visitor w = None ->
  show_post pid req (begin_request w) =
    (Ok (Some (redirect E_login)),
     add_flash "Sorry, you need to log in first!" (begin_request w)).
Proof.
  intros Hm Hv Ha. unfold show_post.
  rewrite (validate_on_submit_POST _ _ Hm), Hv, Hm.
  change (Method_eqb POST POST && true) with true. cbv iota.
  unfold bind at 1. unfold BlogPost_query_get at 1.
  unfold bind at 1. rewrite current_user_begin, Ha. reflexivity.
Qed.

Lemma show_post_logged_in (pid : nat) (req : Request) (w : World)
  (u : User.t) :
  method req = POST -> validate CreateCommentForm req = true ->
  visitor w = Some u ->
  show_post pid req (begin_request w) =
    match find_post pid (committed w) with
    | Some p =>
        let '(s1, s2, s3) :=
          comment_steps u p (form_data "body" req) (committed w) in
        if integrity_ok s3 then
          (Ok (Some (render_template "post.html"
                       (ctx_post (Some p) CreateCommentForm))),
           mkWorld s3 s3 (session w) (flashes w) [s3])
        else
          (Raise IntegrityError,
           mkWorld (committed w) (committed w) (session w) (flashes w) [])
    | None =>
        (Raise AttributeError,
         mkWorld (committed w)
           (update_comment (next_id (map Comment.id (comments (committed w))))
              (Comment_set_author (Some (User.id u)))
              (store_add_comment
                 (Comment.mk 0 None None (form_data "body" req))
                 (committed w)))
           (session w) (flashes w) [])
    end.
Proof.
  intros Hm Hv Ha. unfold show_post.
  rewrite (validate_on_submit_POST _ _ Hm), Hv, Hm.
  change (Method_eqb POST POST && true) with true. cbv iota.
  unfold bind at 1. unfold BlogPost_query_get at 1.
  unfold bind at 1. rewrite current_user_begin, Ha.
  change (working (begin_request w)) with (committed w).
  change (is_authenticated (Some u)) with true. cbv iota.
  change (field CreateCommentForm "body" req) with (ret (form_data "body" req)).
  unfold db_session_add_comment, User_comments_append,
    BlogPost_comments_append, db_session_commit, comment_steps.
  destruct (find_post pid (committed w)) as [p|]; unfold_monad; simpl.
  - match goal with |- context [integrity_ok ?s] => destruct (integrity_ok s) end;
      reflexivity.
  - reflexivity.
Qed.

Lemma update_comment_last (f : Comment.t -> Comment.t) (cs : list Comment.t)
  (c : Comment.t) :
  Comment.id c = next_id (map Comment.id cs) ->
  map (fun x => if Nat.eqb (Comment.id x) (Comment.id c) then f x else x)
      (cs ++ [c])
  = (cs ++ [f c])%list.
Proof.
  intros Hc. rewrite map_app. simpl. rewrite Nat.eqb_refl. f_equal.
  rewrite <- (map_id cs) at 2. apply map_ext_in. intros x Hx.
  assert (Comment.id x < next_id (map Comment.id cs)) as Hlt.
  { apply next_id_above. now apply in_map. }
  destruct (Nat.eqb (Comment.id x) (Comment.id c)) eqn:E; [|reflexivity].
  apply Nat.eqb_eq in E. lia.
Qed.

(** The three stores of the comment path, spelled out. *)
Lemma comment_steps_spec (u : User.t) (p : BlogPost.t) (body : string)
  (s : Store) :
  let cid := next_id (map Comment.id (comments s)) in
  comment_steps u p body s =
    (mkStore (users s) (blog_posts s)
       (comments s ++ [Comment.mk cid None None body]),
     mkStore (users s) (blog_posts s)
       (comments s ++ [Comment.mk cid (Some (User.id u)) None body]),
     mkStore (users s) (blog_posts s)
       (comments s ++
          [Comment.mk cid (Some (User.id u)) (Some (BlogPost.id p)) body])).
Proof.
  unfold comment_steps, store_add_comment, update_comment. simpl.
  set (cid := next_id (map Comment.id (comments s))).
  pose proof (update_comment_last (Comment_set_author (Some (User.id u)))
                (comments s) (Comment.mk cid None None body) eq_refl) as E1.
  pose proof (update_comment_last (Comment_set_post (Some (BlogPost.id p)))
                (comments s)
                (Comment.mk cid (Some (User.id u)) None body) eq_refl) as E2.
  unfold Comment_set_author, Comment_set_post in *. simpl in E1, E2.
  rewrite E1, E2. reflexivity.
Qed.

Lemma integrity_add_comment (c : Comment.t) (s : Store) :
  integrity_ok
    (mkStore (users s) (blog_posts s)
       (comments s ++
          [Comment.mk (next_id (map Comment.id (comments s)))
             (Comment.author_id c) (Comment.post_id c) (Comment.text c)]))
  = integrity_ok s.
Proof.
  unfold integrity_ok. simpl. rewrite map_app. simpl.
  rewrite (nodupb_app_one Nat.eqb) by (intros; apply Nat.eqb_sym).
  rewrite next_id_fresh. simpl. now rewrite andb_true_r.
Qed.


(** ** Counting commits *)

Lemma cw_ret {A} (a : A) : commits_within 0 (ret a).
Proof. intros w. simpl. lia. Qed.

Lemma cw_raise {A} (e : Exception) : commits_within 0 (@raise A e).
Proof. intros w. simpl. lia. Qed.

Lemma cw_abort {A} (c : nat) : commits_within 0 (@abort A c).
Proof. apply cw_raise. Qed.

Lemma cw_weaken {A} (n : nat) (m : M A) :
  commits_within 0 m -> commits_within n m.
Proof. intros H w. specialize (H w). lia. Qed.

Lemma cw_bind {A B} (n k : nat) (m : M A) (f : A -> M B) :
  commits_within n m -> (forall a, commits_within k (f a)) ->
  commits_within (n + k) (bind m f).
Proof.
  intros Hm Hf w. unfold bind. specialize (Hm w).
  destruct (m w) as [[a|e] w1]; simpl in *.
  - specialize (Hf a w1). lia.
  - lia.
Qed.

Lemma cw_bind_first {A B} (n : nat) (m : M A) (f : A -> M B) :
  commits_within 0 m -> (forall a, commits_within n (f a)) ->
  commits_within n (bind m f).
Proof. intros Hm Hf. apply (cw_bind 0 n); assumption. Qed.

Lemma cw_bind_last {A B} (n : nat) (m : M A) (f : A -> M B) :
  commits_within n m -> (forall a, commits_within 0 (f a)) ->
  commits_within n (bind m f).
Proof.
  intros Hm Hf. rewrite <- (Nat.add_0_r n). apply cw_bind; assumption.
Qed.

Lemma cw_try {A} (n : nat) (m : M A) (handler : Exception -> option (M A)) :
  commits_within n m ->
  (forall e h, handler e = Some h -> commits_within 0 h) ->
  commits_within n (try_except m handler).
Proof.
  intros Hm Hh w. unfold try_except. specialize (Hm w).
  destruct (m w) as [[a|e] w1]; simpl in *; [exact Hm|].
  destruct (handler e) as [h|] eqn:E; simpl; [|exact Hm].
  specialize (Hh e h E w1). lia.
Qed.

Lemma cw_modify (f : World -> World) :
  (forall w, commit_log (f w) = commit_log w) -> commits_within 0 (modify f).
Proof. intros H w. unfold commits. simpl. rewrite H. lia. Qed.

Lemma cw_modify_working (f : Store -> Store) :
  commits_within 0 (modify_working f).
Proof. apply cw_modify. reflexivity. Qed.

Lemma cw_get_world : commits_within 0 get_world.
Proof. intros w. simpl. lia. Qed.

Lemma cw_current_user : commits_within 0 current_user.
Proof.
  intros w. unfold current_user, load_user, User_query_get.
  destruct (session w); simpl; lia.
Qed.

Lemma cw_current_user_id : commits_within 0 current_user_id.
Proof.
  apply cw_bind_first; [apply cw_current_user|].
  intros [u|]; [apply cw_ret|apply cw_raise].
Qed.

Lemma cw_flash (msg : string) : commits_within 0 (flash msg).
Proof. apply cw_modify. reflexivity. Qed.

Lemma cw_login_user (u : User.t) : commits_within 0 (login_user u).
Proof. apply cw_modify. reflexivity. Qed.

Lemma cw_logout_user : commits_within 0 logout_user.
Proof. apply cw_modify. reflexivity. Qed.

Lemma cw_filter_by_email (e : string) :
  commits_within 0 (User_query_filter_by_email_first e).
Proof. intros w. simpl. lia. Qed.

Lemma cw_query_get (pid : nat) : commits_within 0 (BlogPost_query_get pid).
Proof. intros w. simpl. lia. Qed.

Lemma cw_query_all : commits_within 0 BlogPost_query_all.
Proof. intros w. simpl. lia. Qed.

Lemma cw_add_user (u : User.t) : commits_within 0 (db_session_add_user u).
Proof.
  apply cw_bind_first; [apply cw_get_world|]. intros w.
  apply cw_bind_first; [apply cw_modify_working|]. intros _. apply cw_ret.
Qed.

Lemma cw_add_post (p : BlogPost.t) : commits_within 0 (db_session_add_post p).
Proof.
  apply cw_bind_first; [apply cw_get_world|]. intros w.
  apply cw_bind_first; [apply cw_modify_working|]. intros _. apply cw_ret.
Qed.

Lemma cw_add_comment (c : Comment.t) :
  commits_within 0 (db_session_add_comment c).
Proof.
  apply cw_bind_first; [apply cw_get_world|]. intros w.
  apply cw_bind_first; [apply cw_modify_working|]. intros _. apply cw_ret.
Qed.

Lemma cw_user_comments_append (cu : option User.t) (cid : nat) :
  commits_within 0 (User_comments_append cu cid).
Proof. destruct cu; [apply cw_modify_working|apply cw_raise]. Qed.

Lemma cw_post_comments_append (p : option BlogPost.t) (cid : nat) :
  commits_within 0 (BlogPost_comments_append p cid).
Proof. destruct p; [apply cw_modify_working|apply cw_raise]. Qed.

Lemma cw_user_posts_append (cu : option User.t) (p : BlogPost.t) :
  commits_within 0 (User_posts_append cu p).
Proof. destruct cu; [apply cw_ret|apply cw_raise]. Qed.

Lemma cw_delete (p : option BlogPost.t) : commits_within 0 (db_session_delete p).
Proof. destruct p; [apply cw_modify_working|apply cw_raise]. Qed.

Lemma cw_attr {A} (p : option BlogPost.t) (column : BlogPost.t -> A) :
  commits_within 0 (attr p column).
Proof. destruct p; [apply cw_ret|apply cw_raise]. Qed.

Lemma cw_author (p : option BlogPost.t) : commits_within 0 (BlogPost_author p).
Proof. apply cw_raise. Qed.

Lemma cw_set (p : option BlogPost.t) (f : BlogPost.t -> BlogPost.t) :
  commits_within 0 (BlogPost_set p f).
Proof. destruct p; [apply cw_modify_working|apply cw_raise]. Qed.

Lemma cw_field (F : FormClass) (fname : string) (req : Request) :
  commits_within 0 (field F fname req).
Proof. unfold field. destruct (has_field F fname); [apply cw_ret|apply cw_raise]. Qed.

Lemma cw_commit : commits_within 1 db_session_commit.
Proof.
  intros w. unfold db_session_commit, commits.
  destruct (integrity_ok (working w)); simpl; [|lia].
  rewrite length_app. simpl. lia.
Qed.

Create HintDb commits0.
#[local] Hint Resolve cw_ret cw_raise cw_abort cw_modify_working cw_get_world
  cw_current_user cw_current_user_id cw_flash cw_login_user cw_logout_user
  cw_filter_by_email cw_query_get cw_query_all cw_add_user cw_add_post
  cw_add_comment cw_user_comments_append cw_post_comments_append
  cw_user_posts_append cw_delete cw_attr cw_author cw_set cw_field : commits0.

(** Walks the body of a view: steps before the commit, the commit, steps
    after it. *)
Ltac no_commit :=
  lazymatch goal with
  | |- commits_within 0 (bind _ _) =>
      apply cw_bind_first; [no_commit | intro; no_commit]
  | |- commits_within 0 (if ?c then _ else _) => destruct c; no_commit
  | |- commits_within 0 (match ?x with _ => _ end) => destruct x; no_commit
  | |- commits_within 0 _ => solve [auto with commits0]
  end.

Ltac one_commit :=
  lazymatch goal with
  | |- commits_within 1 db_session_commit => apply cw_commit
  | |- commits_within 1 (bind _ _) =>
      first [ apply cw_bind_first; [no_commit | intro; one_commit]
            | apply cw_bind_last; [one_commit | intro; no_commit] ]
  | |- commits_within 1 (if ?c then _ else _) => destruct c; one_commit
  | |- commits_within 1 (match ?x with _ => _ end) => destruct x; one_commit
  | |- commits_within 1 (try_except _ _) =>
      apply cw_try;
      [ one_commit
      | let e := fresh "e" in
        let h := fresh "h" in
        let E := fresh "E" in
        intros e h E; destruct e; inversion E; subst; no_commit ]
  | |- commits_within 1 _ => apply cw_weaken; no_commit
  end.

Lemma cw_admin_only (func : View) (req : Request) :
  commits_within 1 (func req) -> commits_within 1 (admin_only func req).
Proof.
  intros H. unfold admin_only. apply cw_try.
  - apply cw_bind_first; [apply cw_current_user_id|].
    intros uid. destruct (Nat.eqb uid 1); [exact H|].
    apply cw_weaken, cw_ret.
  - intros e h E. destruct e; inversion E. apply cw_abort.
Qed.

Lemma cw_view_function (ep : Endpoint) (req : Request) :
  commits_within 1 (view_function ep req).
Proof.
  destruct ep; simpl view_function; try apply cw_admin_only;
    unfold register, login, login_required, logout, get_all_posts, show_post,
      add_new_post, edit_post, delete_post, about, contact;
    cbv zeta; one_commit.
Qed.

Lemma commits_handle_request (ep : Endpoint) (req : Request) (w : World) :
  commits (snd (handle_request ep req w)) <= 1.
Proof.
  unfold handle_request.
  destruct (negb (method_allowed ep (method req)));
    [unfold commits; simpl; lia|].
  pose proof (cw_view_function ep req (begin_request w)) as H.
  destruct (view_function ep req (begin_request w)) as [r w1].
  unfold commits in *. simpl in H.
  destruct (method req); simpl; lia.
Qed.

(** C8 (amended).  Every handler performs at most one store commit per
    request, the comment-creation path included.  On that path (an accepted
    comment of a logged-in visitor on an existing post) the comment is
    created with a text only and joins the open transaction without
    references; the author and post references are attached afterwards, and
    the single commit that follows publishes the row with both references.
    The row without references is never committed. *)
Theorem one_commit_per_request (pid : nat) (req : Request) (w : World)
  (u : User.t) (p : BlogPost.t) :
  method req = POST ->
  validate CreateCommentForm req = true ->
  visitor w = Some u ->
  find_post pid (committed w) = Some p ->
  integrity_ok (committed w) = true ->
  let s0 := committed w in
  let body := form_data "body" req in
  let cid := next_id (map Comment.id (comments s0)) in
  let bare := Comment.mk cid None None body in
  let complete := Comment.mk cid (Some (User.id u)) (Some pid) body in
  let s3 := mkStore (users s0) (blog_posts s0) (comments s0 ++ [complete]) in
  let added :=
    snd (db_session_add_comment (Comment.mk 0 None None body)
           (begin_request w)) in
  (forall ep req' w', commits (snd (handle_request ep req' w')) <= 1)
  /\ comments (working added) = (comments s0 ++ [bare])%list
  /\ committed added = s0
  /\ commit_log added = []
  /\ handle_request (E_show_post pid) req w =
       (render_template "post.html" (ctx_post (Some p) CreateCommentForm),
        mkWorld s3 s3 (session w) (flashes w) [s3]).
Proof.
  intros Hm Hv Hu Hp Hok s0 body cid bare complete s3 added.
  split; [intros; apply commits_handle_request|].
  split; [reflexivity|]. split; [reflexivity|]. split; [reflexivity|].
  rewrite (handle_request_view _ _ _ (POST_to_show_post_reaches_view pid _ Hm)).
  simpl view_function. rewrite (show_post_logged_in _ _ _ _ Hm Hv Hu), Hp.
  rewrite comment_steps_spec.
  destruct (find_post_id _ _ _ Hp) as [Hid _]. rewrite Hid.
  fold s0 body cid complete s3.
  pose proof (integrity_add_comment complete s0) as Hi.
  simpl in Hi. fold cid complete s3 in Hi. unfold s0 in Hi.
  rewrite Hok in Hi. rewrite Hi. reflexivity.
Qed.

(** ** Deleting a post *)

Lemma existsb_filter_le {A} (f g : A -> bool) (l : list A) :
  existsb f (filter g l) = true -> existsb f l = true.
Proof.
  induction l as [|a l IH]; simpl; [easy|].
  destruct (g a); simpl; intros H.
  - apply orb_true_iff in H. apply orb_true_iff. tauto.
  - apply orb_true_iff. right. now apply IH.
Qed.

Lemma nodupb_map_filter {A B} (eqb : B -> B -> bool) (g : A -> B)
  (f : A -> bool) (l : list A) :
  nodupb eqb (map g l) = true -> nodupb eqb (map g (filter f l)) = true.
Proof.
  induction l as [|a l IH]; simpl; [easy|].
  rewrite andb_true_iff, negb_true_iff. intros [Hn Hd].
  destruct (f a); simpl; [|now apply IH].
  rewrite andb_true_iff, negb_true_iff. split; [|now apply IH].
  rewrite existsb_map in *.
  destruct (existsb (fun x => eqb (g a) (g x)) (filter f l)) eqn:E;
    [|reflexivity].
  apply existsb_filter_le in E. congruence.
Qed.

Lemma map_id_detach (pid : nat) (cs : list Comment.t) :
  map Comment.id (map (detach_comment pid) cs) = map Comment.id cs.
Proof.
  rewrite map_map. apply map_ext. intros c. unfold detach_comment.
  destruct (Comment.post_id c) as [q|]; [|reflexivity].
  destruct (Nat.eqb q pid); reflexivity.
Qed.

Lemma integrity_delete_post (pid : nat) (s : Store) :
  integrity_ok s = true -> integrity_ok (store_delete_post pid s) = true.
Proof.
  unfold integrity_ok, store_delete_post. simpl.
  rewrite !andb_true_iff, map_id_detach.
  intros [[[[Hu He] Hp] Ht] Hc]. repeat split; try assumption;
    now apply nodupb_map_filter.
Qed.

Lemma post_key_injective (l : list BlogPost.t) (p q : BlogPost.t) :
  nodupb Nat.eqb (map BlogPost.id l) = true ->
  In p l -> In q l -> BlogPost.id q = BlogPost.id p -> q = p.
Proof.
  rewrite nodupb_nat_NoDup. induction l as [|a l IH]; simpl; [easy|].
  intros Hd Hp Hq Hid. inversion Hd as [|? ? Hn Hd']; subst.
  destruct Hp as [->|Hp], Hq as [->|Hq]; try reflexivity.
  - exfalso. apply Hn. rewrite <- Hid. now apply in_map.
  - exfalso. apply Hn. rewrite Hid. now apply in_map.
  - now apply IH.
Qed.

Lemma filter_out_key_length (l : list BlogPost.t) (p : BlogPost.t) :
  nodupb Nat.eqb (map BlogPost.id l) = true -> In p l ->
  List.length
    (filter (fun q => negb (Nat.eqb (BlogPost.id q) (BlogPost.id p))) l) + 1
  = List.length l.
Proof.
  induction l as [|a l IH]; simpl; [easy|].
  rewrite andb_true_iff, negb_true_iff. intros [Hn Hd] Hin.
  destruct (Nat.eqb (BlogPost.id a) (BlogPost.id p)) eqn:E; simpl.
  - apply Nat.eqb_eq in E.
    assert (filter (fun q => negb (Nat.eqb (BlogPost.id q) (BlogPost.id p))) l
            = l) as ->; [|lia].
    rewrite <- E. clear IH Hin Hd. rewrite existsb_map in Hn.
    induction l as [|b l IH]; simpl in *; [reflexivity|].
    apply orb_false_iff in Hn. destruct Hn as [Hb Hl].
    rewrite Nat.eqb_sym, Hb. simpl. f_equal. now apply IH.
  - destruct Hin as [->|Hin]; [now rewrite Nat.eqb_refl in E|].
    rewrite <- (IH Hd Hin). lia.
Qed.

Lemma delete_reaches_view (pid : nat) (req : Request) :
  method req = GET -> reaches_view (E_delete_post pid) req = true.
Proof. unfold reaches_view. intros ->. reflexivity. Qed.

Lemma delete_post_run (pid : nat) (req : Request) (w : World) :
  delete_post pid req (begin_request w) =
    match find_post pid (committed w) with
    | Some p =>
        let s' := store_delete_post (BlogPost.id p) (committed w) in
        if integrity_ok s' then
          (Ok (Some (redirect E_get_all_posts)),
           mkWorld s' s' (session w) (flashes w) [s'])
        else
          (Raise IntegrityError, begin_request w)
    | None => (Raise UnmappedInstanceError, begin_request w)
    end.
Proof.
  unfold delete_post, db_session_delete, db_session_commit. unfold_monad.
  change (working (begin_request w)) with (committed w).
  destruct (find_post pid (committed w)) as [p|]; [|reflexivity]. simpl.
  destruct (integrity_ok (store_delete_post (BlogPost.id p) (committed w)));
    reflexivity.
Qed.

(** C9.  The administrator (the visitor with id 1) deletes an existing post
    with a GET of the delete route, on a store that satisfies its
    constraints.  The answer is a redirect to the list; exactly the row of
    that post leaves the posts table, every other post stays as it is; the
    users table is unchanged; no comment row is deleted: the comments table
    keeps every row, with its key, author and text, and the comments that
    referenced the deleted post stay with their post reference cleared. *)
Theorem delete_post_removes_only_the_post (pid : nat) (req : Request)
  (w : World) (u : User.t) (p : BlogPost.t) :
  visitor w = Some u -> User.id u = 1 ->
  find_post pid (committed w) = Some p ->
  method req = GET ->
  integrity_ok (committed w) = true ->
  let s := committed w in
  let resp := fst (handle_request (E_delete_post pid) req w) in
  let s' := committed (snd (handle_request (E_delete_post pid) req w)) in
  resp = redirect E_get_all_posts
  /\ users s' = users s
  /\ (forall q, In q (blog_posts s') <-> In q (blog_posts s) /\ q <> p)
  /\ List.length (blog_posts s') + 1 = List.length (blog_posts s)
  /\ find_post pid s' = None
  /\ comments s' = map (detach_comment pid) (comments s)
  /\ map Comment.id (comments s') = map Comment.id (comments s)
  /\ map Comment.author_id (comments s') = map Comment.author_id (comments s)
  /\ map Comment.text (comments s') = map Comment.text (comments s)
  /\ (forall c, In c (comments s) -> Comment.post_id c <> Some pid ->
        In c (comments s')).
Proof.
  intros Hu Hid Hp Hm Hok s resp s'. subst resp s'.
  rewrite (handle_request_view _ _ _ (delete_reaches_view pid _ Hm)).
  simpl view_function. rewrite (admin_only_admin _ _ _ _ Hu Hid).
  rewrite delete_post_run, Hp. cbv zeta.
  destruct (find_post_id _ _ _ Hp) as [Hpid Hin]. rewrite Hpid.
  rewrite (integrity_delete_post pid _ Hok). simpl. fold s.
  assert (nodupb Nat.eqb (map BlogPost.id (blog_posts s)) = true) as Hnd.
  { unfold integrity_ok in Hok. rewrite !andb_true_iff in Hok. tauto. }
  split; [reflexivity|]. split; [reflexivity|]. split.
  { intros q. rewrite filter_In, negb_true_iff, Nat.eqb_neq. split.
    - intros [Hq Hne]. split; [exact Hq|]. intros ->. congruence.
    - intros [Hq Hne]. split; [exact Hq|]. intros Hk. apply Hne.
      apply (post_key_injective (blog_posts s)); try assumption. congruence. }
  split. { rewrite <- Hpid. now apply filter_out_key_length. }
  split.
  { unfold find_post. simpl.
    destruct (find _ _) as [q|] eqn:Hf; [|reflexivity].
    apply find_some in Hf. destruct Hf as [Hq Hk].
    apply filter_In in Hq. destruct Hq as [_ Hq]. rewrite Hk in Hq.
    discriminate. }
  split; [reflexivity|]. split; [apply map_id_detach|].
  split.
  { rewrite map_map. apply map_ext. intros c. unfold detach_comment.
    destruct (Comment.post_id c) as [q|]; [|reflexivity].
    destruct (Nat.eqb q pid); reflexivity. }
  split.
  { rewrite map_map. apply map_ext. intros c. unfold detach_comment.
    destruct (Comment.post_id c) as [q|]; [|reflexivity].
    destruct (Nat.eqb q pid); reflexivity. }
  intros c Hc Hne. apply in_map_iff. exists c. split; [|exact Hc].
  unfold detach_comment. destruct (Comment.post_id c) as [q|]; [|reflexivity].
  destruct (Nat.eqb q pid) eqn:E; [|reflexivity].
  apply Nat.eqb_eq in E. congruence.
Qed.

(** ** Registration and the login session *)

Lemma register_not_accepted (req : Request) (w : World) :
  Method_eqb (method req) POST && validate UserForm req = false ->
  register req (begin_request w) =
    (Ok (Some (render_template "register.html" (ctx_form UserForm))),
     begin_request w).
Proof.
  intros H. unfold register, validate_on_submit, is_submitted.
  destruct (method req); simpl in *; try reflexivity.
  rewrite H. reflexivity.
Qed.


(** The login form asks less than the register form of the same fields. *)
Lemma validate_LoginForm_of_UserForm (req lreq : Request) :
  validate UserForm req = true ->
  form lreq = form req -> csrf_valid lreq = true ->
  validate LoginForm lreq = true.
Proof.
  unfold validate, field_ok, form_get. intros H Hf Hc. rewrite Hf, Hc.
  apply andb_true_iff in H. destruct H as [_ H]. simpl in *.
  apply andb_true_iff in H. destruct H as [He H].
  apply andb_true_iff in H. destruct H as [Hp _].
  rewrite He, Hp. reflexivity.
Qed.

Lemma form_data_same (fname : string) (req lreq : Request) :
  form lreq = form req -> form_data fname lreq = form_data fname req.
Proof. unfold form_data, form_get. now intros ->. Qed.

Lemma find_by_email_add_user (u : User.t) (s : Store) :
  has_email (User.email u) s = false ->
  find_by_email (User.email u) (store_add_user u s)
  = Some (User.mk (next_id (map User.id (users s))) (User.email u)
                  (User.password u) (User.name u)).
Proof.
  unfold has_email, find_by_email, store_add_user. simpl.
  generalize (next_id (map User.id (users s))) as k. intros k.
  induction (users s) as [|v l IH]; simpl.
  - now rewrite String.eqb_refl.
  - intros H. apply orb_false_iff in H. destruct H as [Hv Hl].
    rewrite Hv. exact (IH Hl).
Qed.

Lemma find_user_add_user (u : User.t) (s : Store) :
  find_user (next_id (map User.id (users s))) (store_add_user u s)
  = Some (User.mk (next_id (map User.id (users s))) (User.email u)
                  (User.password u) (User.name u)).
Proof.
  unfold find_user, store_add_user. simpl.
  pose proof (next_id_fresh (map User.id (users s))) as Hf.
  rewrite existsb_map in Hf. revert Hf.
  generalize (next_id (map User.id (users s))) as k.
  intros k. induction (users s) as [|v l IH]; simpl.
  - now rewrite Nat.eqb_refl.
  - intros H. apply orb_false_iff in H. destruct H as [Hv Hl].
    rewrite Nat.eqb_sym, Hv. exact (IH Hl).
Qed.


(** ** Editing a post *)

(** The view raises [AttributeError] on every request: on [post.title] when
    the post is absent, on [post.author] when it is there.  It never gets to
    the form. *)
Lemma edit_post_raises (pid : nat) (req : Request) (w0 : World) :
  edit_post pid req w0 = (Raise AttributeError, w0).
Proof.
  unfold edit_post, attr, BlogPost_author. unfold_monad.
  destruct (find_post pid (working w0)); reflexivity.
Qed.

(** Whatever the request and the session, the edit route writes nothing and
    answers with an error page (405, 403 or 500) or the OPTIONS response. *)
Lemma edit_post_never_writes (pid : nat) (req : Request) (w : World) :
  snd (handle_request (E_edit_post pid) req w) = begin_request w
  /\ (fst (handle_request (E_edit_post pid) req w) = HTTPError 405
      \/ fst (handle_request (E_edit_post pid) req w) = HTTPError 403
      \/ fst (handle_request (E_edit_post pid) req w) = HTTPError 500
      \/ fst (handle_request (E_edit_post pid) req w) = OptionsResponse).
Proof.
  destruct (reaches_view (E_edit_post pid) req) eqn:Hr.
  - rewrite (handle_request_view _ _ _ Hr). simpl view_function.
    destruct (visitor w) as [u|] eqn:Hu.
    + destruct (Nat.eq_dec (User.id u) 1) as [Hid|Hid].
      * rewrite (admin_only_admin _ _ _ _ Hu Hid), edit_post_raises.
        simpl. auto.
      * rewrite (admin_only_other_user _ _ _ _ Hu Hid). simpl. auto.
    + rewrite (admin_only_anonymous _ _ _ Hu). simpl. auto.
  - unfold reaches_view in Hr. unfold handle_request.
    destruct (method req); simpl in *; try discriminate; auto 6.
Qed.

Lemma edit_reaches_view (pid : nat) (req : Request) :
  method req = GET -> reaches_view (E_edit_post pid) req = true.
Proof. unfold reaches_view. intros ->. reflexivity. Qed.

(** ** Creating a post *)

Lemma add_new_post_not_accepted (req : Request) (w0 : World) :
  validate_on_submit CreatePostForm req = false ->
  add_new_post req w0 =
    (Ok (Some (render_template "make-post.html" (ctx_form CreatePostForm))),
     w0).
Proof. intros H. unfold add_new_post. rewrite H. reflexivity. Qed.

(** A submission whose image field is not URL-shaped fails the form. *)
Lemma non_url_image_fails_validation (req : Request) (img : string) :
  form_get "img_url" req = Some img -> is_url img = false ->
  validate CreatePostForm req = false.
Proof.
  intros Hg Hu. unfold validate, CreatePostForm, field_ok. simpl.
  rewrite Hg. simpl. rewrite Hu.
  repeat rewrite ?andb_false_r, ?andb_false_l. reflexivity.
Qed.

(** The administrator's create-post submission that fails a rule writes
    nothing, and the form is presented again. *)
Lemma add_new_post_rejects_invalid_form (req : Request) (w : World)
  (u : User.t) :
  visitor w = Some u -> User.id u = 1 ->
  reaches_view E_add_new_post req = true ->
  validate_on_submit CreatePostForm req = false ->
  handle_request E_add_new_post req w =
    (render_template "make-post.html" (ctx_form CreatePostForm),
     begin_request w).
Proof.
  intros Hu Hid Hr Hv. rewrite (handle_request_view _ _ _ Hr).
  simpl view_function. rewrite (admin_only_admin _ _ _ _ Hu Hid).
  rewrite (add_new_post_not_accepted _ _ Hv). reflexivity.
Qed.

(** On the routes that take a form, the store changes only for a submission
    that passes every rule of every field. *)
Lemma write_needs_valid_form (ep : Endpoint) (F : FormClass) (req : Request)
  (w : World) :
  form_of ep = Some F ->
  committed (snd (handle_request ep req w)) <> committed w ->
  validate_on_submit F req = true.
Proof.
  intros HF Hw.
  destruct (validate_on_submit F req) eqn:Hv; [reflexivity|].
  exfalso. apply Hw. clear Hw.
  destruct (reaches_view ep req) eqn:Hr.
  2:{ unfold reaches_view in Hr. unfold handle_request.
      destruct (negb (method_allowed ep (method req))) eqn:Ha; [reflexivity|].
      apply negb_false_iff in Ha. rewrite Ha in Hr.
      destruct (method req); try discriminate. reflexivity. }
  destruct ep; simpl in HF; inversion HF; subst F.
  - rewrite (handle_request_view _ _ _ Hr). simpl view_function.
    rewrite register_not_accepted; [reflexivity|].
    unfold validate_on_submit, is_submitted in Hv.
    destruct (method req); simpl in *; try reflexivity; exact Hv.
  - rewrite (handle_request_view _ _ _ Hr). simpl view_function.
    rewrite login_not_accepted; [reflexivity|].
    unfold validate_on_submit, is_submitted in Hv.
    destruct (method req); simpl in *; try reflexivity; exact Hv.
  - rewrite (handle_request_view _ _ _ Hr). simpl view_function.
    rewrite show_post_not_accepted; [reflexivity|].
    rewrite Hv. apply andb_false_r.
  - rewrite (handle_request_view _ _ _ Hr). simpl view_function.
    destruct (visitor w) as [u|] eqn:Hu.
    + destruct (Nat.eq_dec (User.id u) 1) as [Hid|Hid].
      * rewrite (admin_only_admin _ _ _ _ Hu Hid).
        rewrite (add_new_post_not_accepted _ _ Hv). reflexivity.
      * rewrite (admin_only_other_user _ _ _ _ Hu Hid). reflexivity.
    + rewrite (admin_only_anonymous _ _ _ Hu). reflexivity.
  - destruct (edit_post_never_writes post_id req w) as [-> _]. reflexivity.
Qed.

(** ** A post id that is not in the store *)

Lemma serve_storable (ep : Endpoint) (req : Request) (w : World) :
  match route_key ep with
  | Some pid => storable pid = true
  | None => True
  end ->
  serve ep req w = handle_request ep req w.
Proof.
  unfold serve, handle_request.
  destruct ep; simpl; intros H; try reflexivity; unfold bind_key;
    destruct (storable post_id); try discriminate; reflexivity.
Qed.

Lemma serve_view (ep : Endpoint) (req : Request) (w : World) :
  reaches_view ep req = true ->
  serve ep req w =
    (make_response (fst (view_function_bound ep req (begin_request w))),
     teardown (snd (view_function_bound ep req (begin_request w)))).
Proof.
  unfold reaches_view, serve. intros H.
  apply andb_true_iff in H. destruct H as [Ha Ho]. rewrite Ha. simpl.
  destruct (view_function_bound ep req (begin_request w)) as [r w1].
  destruct (method req); simpl in Ho; try discriminate; reflexivity.
Qed.

Lemma bind_key_overflow (pid : nat) (v : View) (req : Request) (w0 : World) :
  storable pid = false -> bind_key pid v req w0 = (Raise OverflowError, w0).
Proof. unfold bind_key. intros ->. reflexivity. Qed.

(** An id the store cannot hold is the id of no row a request has
    written. *)
Lemma unstorable_is_large (pid : nat) :
  storable pid = false <-> (2 ^ 63 <= N.of_nat pid)%N.
Proof. unfold storable. rewrite N.ltb_ge. reflexivity. Qed.

(** C7 (amended).  A request fetches a post by an id that is absent from the
    store.  If the id is too large for the store's key, the lookup itself
    fails: the view surfaces a server error for every visitor, and so do
    edit and delete for the administrator.  If the store can hold the id,
    the fetch returns an absent record and no handler checks for it: delete
    (administrator) hands the absent record to the store session and
    surfaces as a server error; edit (administrator) dereferences the absent
    record and the attribute-access failure is turned into 403 Forbidden by
    the admin gate; view surfaces as a server error only for an accepted
    comment of a logged-in visitor, an accepted comment of an anonymous
    visitor is redirected to login as for an existing post, and every other
    view request renders the post template with an absent post.  In no case
    is the store changed. *)
Theorem absent_post_outcomes (pid : nat) (req : Request) (w : World) :
  find_post pid (committed w) = None ->
  (storable pid = false ->
     (reaches_view (E_show_post pid) req = true ->
        serve (E_show_post pid) req w = (HTTPError 500, begin_request w))
     /\ (forall u, visitor w = Some u -> User.id u = 1 -> method req = GET ->
           serve (E_delete_post pid) req w = (HTTPError 500, begin_request w)
           /\ serve (E_edit_post pid) req w
              = (HTTPError 500, begin_request w)))
  /\ (storable pid = true ->
       BlogPost_query_get pid (begin_request w) = (Ok None, begin_request w)
       /\ (forall u, visitor w = Some u -> User.id u = 1 -> method req = GET ->
             serve (E_delete_post pid) req w
             = (HTTPError 500, begin_request w))
       /\ (forall u, visitor w = Some u -> User.id u = 1 -> method req = GET ->
             serve (E_edit_post pid) req w
             = (HTTPError 403, begin_request w))
       /\ (forall u, visitor w = Some u ->
             method req = POST -> validate CreateCommentForm req = true ->
             fst (serve (E_show_post pid) req w) = HTTPError 500
             /\ committed (snd (serve (E_show_post pid) req w))
                = committed w)
       /\ (visitor w = None ->
             method req = POST -> validate CreateCommentForm req = true ->
             serve (E_show_post pid) req w
             = (redirect E_login,
                add_flash "Sorry, you need to log in first!"
                  (begin_request w)))
       /\ (reaches_view (E_show_post pid) req = true ->
             Method_eqb (method req) POST
             && validate_on_submit CreateCommentForm req = false ->
             serve (E_show_post pid) req w
             = (render_template "post.html"
                  (ctx_post None CreateCommentForm),
                begin_request w))).
Proof.
  intros Habs. split.
  { intros Hbig. split.
    - intros Hr. rewrite (serve_view _ _ _ Hr). simpl view_function_bound.
      rewrite (bind_key_overflow _ _ _ _ Hbig). reflexivity.
    - intros u Hu Hid Hm. split.
      + rewrite (serve_view _ _ _ (delete_reaches_view pid _ Hm)).
        simpl view_function_bound. rewrite (admin_only_admin _ _ _ _ Hu Hid).
        rewrite (bind_key_overflow _ _ _ _ Hbig). reflexivity.
      + rewrite (serve_view _ _ _ (edit_reaches_view pid _ Hm)).
        simpl view_function_bound. rewrite (admin_only_admin _ _ _ _ Hu Hid).
        rewrite (bind_key_overflow _ _ _ _ Hbig). reflexivity. }
  intros Hfit.
  assert (forall ep, route_key ep = Some pid ->
            serve ep req w = handle_request ep req w) as Hserve.
  { intros ep Hk. apply serve_storable. now rewrite Hk. }
  rewrite !Hserve by reflexivity.
  split.
  { unfold BlogPost_query_get.
    change (working (begin_request w)) with (committed w).
    now rewrite Habs. }
  split.
  { intros u Hu Hid Hm.
    rewrite (handle_request_view _ _ _ (delete_reaches_view pid _ Hm)).
    simpl view_function. rewrite (admin_only_admin _ _ _ _ Hu Hid).
    rewrite delete_post_run, Habs. reflexivity. }
  split.
  { intros u Hu Hid Hm.
    rewrite (handle_request_view _ _ _ (edit_reaches_view pid _ Hm)).
    simpl view_function. rewrite (admin_only_admin _ _ _ _ Hu Hid).
    rewrite edit_post_raises. reflexivity. }
  split.
  { intros u Hu Hm Hv.
    rewrite (handle_request_view _ _ _
               (POST_to_show_post_reaches_view pid _ Hm)).
    simpl view_function. rewrite (show_post_logged_in _ _ _ _ Hm Hv Hu), Habs.
    split; reflexivity. }
  split.
  { intros Hu Hm Hv.
    rewrite (handle_request_view _ _ _
               (POST_to_show_post_reaches_view pid _ Hm)).
    simpl view_function. rewrite (show_post_anonymous _ _ _ Hm Hv Hu).
    reflexivity. }
  intros Hr Hv. rewrite (handle_request_view _ _ _ Hr).
  simpl view_function. rewrite (show_post_not_accepted _ _ _ Hv), Habs.
  reflexivity.
Qed.

(** ** The constraints of the schema hold in every reachable world *)

Lemma pres_ret {A} (I : World -> Prop) (a : A) : preserves I (ret a).
Proof. intros w H. exact H. Qed.

Lemma pres_raise {A} (I : World -> Prop) (e : Exception) :
  preserves I (@raise A e).
Proof. intros w H. exact H. Qed.

Lemma pres_bind {A B} (I : World -> Prop) (m : M A) (f : A -> M B) :
  preserves I m -> (forall a, preserves I (f a)) -> preserves I (bind m f).
Proof.
  intros Hm Hf w H. unfold bind. specialize (Hm w H).
  destruct (m w) as [[a|e] w1]; simpl in *; [now apply Hf|exact Hm].
Qed.

Lemma pres_try {A} (I : World -> Prop) (m : M A)
  (handler : Exception -> option (M A)) :
  preserves I m ->
  (forall e h, handler e = Some h -> preserves I h) ->
  preserves I (try_except m handler).
Proof.
  intros Hm Hh w H. unfold try_except. specialize (Hm w H).
  destruct (m w) as [[a|e] w1]; simpl in *; [exact Hm|].
  destruct (handler e) as [h|] eqn:E; simpl; [|exact Hm].
  now apply (Hh e h E).
Qed.

Lemma pres_modify (I : World -> Prop) (f : World -> World) :
  (forall w, I w -> I (f w)) -> preserves I (modify f).
Proof. intros H w Hw. now apply H. Qed.

Lemma inv_modify_working (f : Store -> Store) :
  preserves store_inv (modify_working f).
Proof. apply pres_modify. intros w H. exact H. Qed.

Lemma inv_get_world : preserves store_inv get_world.
Proof. intros w H. exact H. Qed.

Lemma inv_current_user : preserves store_inv current_user.
Proof.
  intros w H. unfold current_user, load_user, User_query_get.
  destruct (session w); exact H.
Qed.

Lemma inv_current_user_id : preserves store_inv current_user_id.
Proof.
  apply pres_bind; [apply inv_current_user|].
  intros [u|]; [apply pres_ret|apply pres_raise].
Qed.

Lemma inv_flash (msg : string) : preserves store_inv (flash msg).
Proof. apply pres_modify. intros w H. exact H. Qed.

Lemma inv_login_user (u : User.t) : preserves store_inv (login_user u).
Proof. apply pres_modify. intros w H. exact H. Qed.

Lemma inv_logout_user : preserves store_inv logout_user.
Proof. apply pres_modify. intros w H. exact H. Qed.

Lemma inv_filter_by_email (e : string) :
  preserves store_inv (User_query_filter_by_email_first e).
Proof. intros w H. exact H. Qed.

Lemma inv_query_get (pid : nat) : preserves store_inv (BlogPost_query_get pid).
Proof. intros w H. exact H. Qed.

Lemma inv_query_all : preserves store_inv BlogPost_query_all.
Proof. intros w H. exact H. Qed.

Lemma inv_add_user (u : User.t) : preserves store_inv (db_session_add_user u).
Proof.
  apply pres_bind; [apply inv_get_world|]. intros w.
  apply pres_bind; [apply inv_modify_working|]. intros _. apply pres_ret.
Qed.

Lemma inv_add_post (p : BlogPost.t) :
  preserves store_inv (db_session_add_post p).
Proof.
  apply pres_bind; [apply inv_get_world|]. intros w.
  apply pres_bind; [apply inv_modify_working|]. intros _. apply pres_ret.
Qed.

Lemma inv_add_comment (c : Comment.t) :
  preserves store_inv (db_session_add_comment c).
Proof.
  apply pres_bind; [apply inv_get_world|]. intros w.
  apply pres_bind; [apply inv_modify_working|]. intros _. apply pres_ret.
Qed.

Lemma inv_user_comments_append (cu : option User.t) (cid : nat) :
  preserves store_inv (User_comments_append cu cid).
Proof. destruct cu; [apply inv_modify_working|apply pres_raise]. Qed.

Lemma inv_post_comments_append (p : option BlogPost.t) (cid : nat) :
  preserves store_inv (BlogPost_comments_append p cid).
Proof. destruct p; [apply inv_modify_working|apply pres_raise]. Qed.

Lemma inv_user_posts_append (cu : option User.t) (p : BlogPost.t) :
  preserves store_inv (User_posts_append cu p).
Proof. destruct cu; [apply pres_ret|apply pres_raise]. Qed.

Lemma inv_delete (p : option BlogPost.t) :
  preserves store_inv (db_session_delete p).
Proof. destruct p; [apply inv_modify_working|apply pres_raise]. Qed.

Lemma inv_attr {A} (p : option BlogPost.t) (column : BlogPost.t -> A) :
  preserves store_inv (attr p column).
Proof. destruct p; [apply pres_ret|apply pres_raise]. Qed.

Lemma inv_author (p : option BlogPost.t) :
  preserves store_inv (BlogPost_author p).
Proof. apply pres_raise. Qed.

Lemma inv_set (p : option BlogPost.t) (f : BlogPost.t -> BlogPost.t) :
  preserves store_inv (BlogPost_set p f).
Proof. destruct p; [apply inv_modify_working|apply pres_raise]. Qed.

Lemma inv_field (F : FormClass) (fname : string) (req : Request) :
  preserves store_inv (field F fname req).
Proof.
  unfold field. destruct (has_field F fname); [apply pres_ret|apply pres_raise].
Qed.

(** A commit publishes the transaction only if the store accepts it. *)
Lemma inv_commit : preserves store_inv db_session_commit.
Proof.
  intros w H. unfold db_session_commit, store_inv.
  destruct (integrity_ok (working w)) eqn:E; simpl; [exact E|exact H].
Qed.

Create HintDb store_inv.
#[local] Hint Resolve pres_ret pres_raise inv_modify_working inv_get_world
  inv_current_user inv_current_user_id inv_flash inv_login_user
  inv_logout_user inv_filter_by_email inv_query_get inv_query_all
  inv_add_user inv_add_post inv_add_comment inv_user_comments_append
  inv_post_comments_append inv_user_posts_append inv_delete inv_attr
  inv_author inv_set inv_field inv_commit : store_inv.

Ltac keeps_inv :=
  lazymatch goal with
  | |- preserves _ (bind _ _) =>
      apply pres_bind; [keeps_inv | intro; keeps_inv]
  | |- preserves _ (try_except _ _) =>
      apply pres_try;
      [ keeps_inv
      | let e := fresh "e" in
        let h := fresh "h" in
        let E := fresh "E" in
        intros e h E; destruct e; inversion E; subst; keeps_inv ]
  | |- preserves _ (if ?c then _ else _) => destruct c; keeps_inv
  | |- preserves _ (match ?x with _ => _ end) => destruct x; keeps_inv
  | |- preserves _ (abort _) => apply pres_raise
  | |- preserves _ _ => solve [auto with store_inv]
  end.

Lemma inv_view_function (ep : Endpoint) (req : Request) :
  preserves store_inv (view_function ep req).
Proof.
  destruct ep; simpl view_function;
    unfold admin_only, register, login, login_required, logout,
      get_all_posts, show_post, add_new_post, edit_post, delete_post,
      about, contact;
    cbv zeta; keeps_inv.
Qed.

Lemma handle_request_keeps_integrity (ep : Endpoint) (req : Request)
  (w : World) :
  integrity_ok (committed w) = true ->
  integrity_ok (committed (snd (handle_request ep req w))) = true.
Proof.
  intros H. unfold handle_request.
  destruct (negb (method_allowed ep (method req))); [exact H|].
  pose proof (inv_view_function ep req (begin_request w) H) as Hv.
  destruct (view_function ep req (begin_request w)) as [r w1].
  destruct (method req); simpl; solve [exact H | exact Hv].
Qed.

(** Between two requests nothing is pending. *)
Lemma handle_request_settled (ep : Endpoint) (req : Request) (w : World) :
  working (snd (handle_request ep req w))
  = committed (snd (handle_request ep req w)).
Proof.
  unfold handle_request.
  destruct (negb (method_allowed ep (method req))); [reflexivity|].
  destruct (view_function ep req (begin_request w)) as [r w1].
  destruct (method req); reflexivity.
Qed.

Lemma reachable_integrity (w : World) :
  reachable w -> integrity_ok (committed w) = true.
Proof.
  induction 1 as [|ep req w Hr IH]; [reflexivity|].
  now apply handle_request_keeps_integrity.
Qed.

Lemma reachable_settled (w : World) :
  reachable w -> working w = committed w.
Proof.
  induction 1 as [|ep req w Hr IH]; [reflexivity|].
  apply handle_request_settled.
Qed.

(** * Beyond the single routes: what a request can write, and who can *)

(** ** The remaining routes, step by step *)

Definition has_title (t : string) (s : Store) : bool :=
  existsb (fun p => String.eqb (BlogPost.title p) t) (blog_posts s).

(** The post [add_new_post] builds for the visitor [u] from the form. *)
Definition submitted_post (u : User.t) (req : Request) : BlogPost.t :=
  BlogPost.mk 0 (Some (User.id u)) (form_data "title" req)
    (form_data "subtitle" req) (today req) (form_data "body" req)
    (form_data "img_url" req).

(** The user [register] builds from the form. *)
Definition submitted_user (req : Request) : User.t :=
  User.mk 0 (form_data "email" req)
    (generate_password_hash (form_data "password" req) (salt req))
    (form_data "name" req).

(** The store with one more comment, carrying both references. *)
Definition store_with_comment (u : User.t) (pid : nat) (body : string)
  (s : Store) : Store :=
  mkStore (users s) (blog_posts s)
    (comments s ++
       [Comment.mk (next_id (map Comment.id (comments s)))
          (Some (User.id u)) (Some pid) body]).

Lemma handle_request_not_reaching (ep : Endpoint) (req : Request) (w : World) :
  reaches_view ep req = false ->
  snd (handle_request ep req w) = begin_request w
  /\ (fst (handle_request ep req w) = HTTPError 405
      \/ fst (handle_request ep req w) = OptionsResponse).
Proof.
  unfold reaches_view, handle_request. intros H.
  destruct (method_allowed ep (method req)); simpl in *; [|auto].
  destruct (method req); simpl in *; try discriminate. auto.
Qed.

Lemma has_title_map (t : string) (s : Store) :
  existsb (String.eqb t) (map BlogPost.title (blog_posts s)) = has_title t s.
Proof.
  unfold has_title. rewrite existsb_map. apply existsb_ext.
  intros p. apply String.eqb_sym.
Qed.

(** The store accepts a new post exactly when the title is not taken. *)
Lemma integrity_add_post (p : BlogPost.t) (s : Store) :
  integrity_ok (store_add_post p s)
  = integrity_ok s && negb (has_title (BlogPost.title p) s).
Proof.
  unfold integrity_ok, store_add_post. simpl. rewrite !map_app. simpl.
  rewrite (nodupb_app_one Nat.eqb) by (intros; apply Nat.eqb_sym).
  rewrite (nodupb_app_one String.eqb) by (intros; apply String.eqb_sym).
  rewrite next_id_fresh, has_title_map. simpl.
  destruct (nodupb Nat.eqb (map User.id (users s))),
    (nodupb String.eqb (map User.email (users s))),
    (has_title (BlogPost.title p) s),
    (nodupb Nat.eqb (map BlogPost.id (blog_posts s))),
    (nodupb String.eqb (map BlogPost.title (blog_posts s))),
    (nodupb Nat.eqb (map Comment.id (comments s))); reflexivity.
Qed.

(** What [add_new_post] does with a submission the form accepts. *)
Lemma add_new_post_accepted (req : Request) (w : World) (u : User.t) :
  validate_on_submit CreatePostForm req = true ->
  visitor w = Some u ->
  add_new_post req (begin_request w) =
    let s' := store_add_post (submitted_post u req) (committed w) in
    if integrity_ok s' then
      (Ok (Some (redirect E_get_all_posts)),
       mkWorld s' s' (session w) (flashes w) [s'])
    else (Raise IntegrityError, begin_request w).
Proof.
  intros Hv Hu. unfold add_new_post. rewrite Hv.
  change (field CreatePostForm "title" req) with (ret (form_data "title" req)).
  change (field CreatePostForm "subtitle" req)
    with (ret (form_data "subtitle" req)).
  change (field CreatePostForm "body" req) with (ret (form_data "body" req)).
  change (field CreatePostForm "img_url" req)
    with (ret (form_data "img_url" req)).
  unfold bind at 1. unfold ret at 1. unfold bind at 1. unfold ret at 1.
  unfold bind at 1. unfold ret at 1. unfold bind at 1. unfold ret at 1.
  unfold bind at 1. rewrite current_user_begin, Hu.
  unfold User_posts_append, db_session_add_post, db_session_commit.
  unfold_monad. simpl. unfold submitted_post, store_add_post. simpl.
  match goal with |- context [integrity_ok ?s] => destruct (integrity_ok s) end;
    reflexivity.
Qed.

Lemma logout_run (req : Request) (w : World) :
  login_required logout req (begin_request w) =
    match visitor w with
    | Some _ => (Ok (Some (redirect E_get_all_posts)),
                 set_session None (begin_request w))
    | None => (Raise (HTTPException 401), begin_request w)
    end.
Proof.
  unfold login_required. unfold bind at 1. rewrite current_user_begin.
  destruct (visitor w); reflexivity.
Qed.

(** ** What a request can write *)

(** The writes of main.py: a registered user, a comment, a post, the
    deletion of a post. *)
Inductive Write :=
| NoWrite
| NewUser (u : User.t)
| NewComment (u : User.t) (pid : nat) (body : string)
| NewPost (p : BlogPost.t)
| PostDeleted (pid : nat).

Definition apply_write (wr : Write) (s : Store) : Store :=
  match wr with
  | NoWrite => s
  | NewUser u => store_add_user u s
  | NewComment u pid body => store_with_comment u pid body s
  | NewPost p => store_add_post p s
  | PostDeleted pid => store_delete_post pid s
  end.

(** The route, the submission and the visitor each write needs. *)
Definition write_allowed (ep : Endpoint) (req : Request) (w : World)
  (wr : Write) : Prop :=
  match wr with
  | NoWrite => True
  | NewUser u =>
      ep = E_register /\ method req = POST /\ validate UserForm req = true
      /\ u = submitted_user req
      /\ has_email (User.email u) (committed w) = false
  | NewComment u pid body =>
      ep = E_show_post pid /\ method req = POST
      /\ validate CreateCommentForm req = true
      /\ visitor w = Some u
      /\ (exists p, find_post pid (committed w) = Some p)
      /\ body = form_data "body" req
  | NewPost p =>
      ep = E_add_new_post /\ method req = POST
      /\ validate CreatePostForm req = true
      /\ (exists u, visitor w = Some u /\ User.id u = 1
                    /\ p = submitted_post u req)
      /\ has_title (BlogPost.title p) (committed w) = false
  | PostDeleted pid =>
      ep = E_delete_post pid
      /\ (exists u, visitor w = Some u /\ User.id u = 1)
      /\ (exists p, find_post pid (committed w) = Some p)
  end.

Lemma Method_eqb_POST (m : Method) : Method_eqb m POST = true -> m = POST.
Proof. destruct m; simpl; intros H; try discriminate; reflexivity. Qed.

Lemma submitted_to_add_new_post (req : Request) :
  reaches_view E_add_new_post req = true ->
  validate_on_submit CreatePostForm req = true ->
  method req = POST /\ validate CreatePostForm req = true.
Proof.
  unfold reaches_view, validate_on_submit, is_submitted.
  destruct (method req); simpl; intros Hr Hv; try discriminate.
  now split.
Qed.

(** Every request leaves the database as it was or performs exactly one of
    the four writes, on its own route, for a visitor and a submission that
    the route accepts. *)
Lemma request_write (ep : Endpoint) (req : Request) (w : World) :
  exists wr,
    write_allowed ep req w wr
    /\ committed (snd (handle_request ep req w)) = apply_write wr (committed w).
Proof.
  destruct (reaches_view ep req) eqn:Hr.
  2:{ exists NoWrite. split; [exact I|].
      destruct (handle_request_not_reaching ep req w Hr) as [-> _].
      reflexivity. }
  rewrite (handle_request_view _ _ _ Hr).
  destruct ep; simpl view_function.
  - (* register *)
    destruct (Method_eqb (method req) POST && validate UserForm req) eqn:Hacc.
    + apply andb_true_iff in Hacc. destruct Hacc as [Hm Hv].
      apply Method_eqb_POST in Hm.
      rewrite (register_accepted _ _ Hm Hv). cbv zeta.
      fold (submitted_user req).
      destruct (integrity_ok (store_add_user (submitted_user req) (committed w)))
        eqn:Hi.
      * exists (NewUser (submitted_user req)). split; [|reflexivity].
        rewrite integrity_add_user in Hi. apply andb_true_iff in Hi.
        destruct Hi as [_ Hi]. apply negb_true_iff in Hi.
        simpl. repeat split; assumption.
      * exists NoWrite. split; [exact I|reflexivity].
    + rewrite (register_not_accepted _ _ Hacc).
      exists NoWrite. split; [exact I|reflexivity].
  - (* login *)
    exists NoWrite. split; [exact I|].
    destruct (Method_eqb (method req) POST && validate LoginForm req) eqn:Hacc.
    + apply andb_true_iff in Hacc. destruct Hacc as [Hm Hv].
      apply Method_eqb_POST in Hm. rewrite (login_accepted _ _ Hm Hv).
      destruct (find_by_email _ _) as [u|]; [|reflexivity].
      destruct (check_password_hash _ _); reflexivity.
    + rewrite (login_not_accepted _ _ Hacc). reflexivity.
  - (* logout *)
    exists NoWrite. split; [exact I|]. rewrite logout_run.
    destruct (visitor w); reflexivity.
  - exists NoWrite. split; [exact I|reflexivity].
  - (* show_post *)
    destruct (Method_eqb (method req) POST
              && validate_on_submit CreateCommentForm req) eqn:Hacc.
    + apply andb_true_iff in Hacc. destruct Hacc as [Hm Hv].
      apply Method_eqb_POST in Hm.
      rewrite (validate_on_submit_POST _ _ Hm) in Hv.
      destruct (visitor w) as [u|] eqn:Hu.
      * rewrite (show_post_logged_in _ _ _ _ Hm Hv Hu).
        destruct (find_post post_id (committed w)) as [p|] eqn:Hp.
        -- rewrite comment_steps_spec.
           destruct (find_post_id _ _ _ Hp) as [Hid _]. rewrite Hid.
           match goal with |- context [integrity_ok ?s] =>
             destruct (integrity_ok s) end.
           ++ exists (NewComment u post_id (form_data "body" req)).
              split; [|reflexivity]. simpl. repeat split; try assumption.
              now exists p.
           ++ exists NoWrite. split; [exact I|reflexivity].
        -- exists NoWrite. split; [exact I|reflexivity].
      * rewrite (show_post_anonymous _ _ _ Hm Hv Hu).
        exists NoWrite. split; [exact I|reflexivity].
    + rewrite (show_post_not_accepted _ _ _ Hacc).
      exists NoWrite. split; [exact I|reflexivity].
  - (* add_new_post *)
    destruct (visitor w) as [u|] eqn:Hu.
    + destruct (Nat.eq_dec (User.id u) 1) as [Hid|Hid].
      * rewrite (admin_only_admin _ _ _ _ Hu Hid).
        destruct (validate_on_submit CreatePostForm req) eqn:Hv.
        -- rewrite (add_new_post_accepted _ _ _ Hv Hu). cbv zeta.
           destruct (integrity_ok
                       (store_add_post (submitted_post u req) (committed w)))
             eqn:Hi.
           ++ exists (NewPost (submitted_post u req)). split; [|reflexivity].
              rewrite integrity_add_post in Hi. apply andb_true_iff in Hi.
              destruct Hi as [_ Hi]. apply negb_true_iff in Hi.
              destruct (submitted_to_add_new_post _ Hr Hv) as [Hm Hv'].
              simpl. repeat split; try assumption. now exists u.
           ++ exists NoWrite. split; [exact I|reflexivity].
        -- rewrite (add_new_post_not_accepted _ _ Hv).
           exists NoWrite. split; [exact I|reflexivity].
      * rewrite (admin_only_other_user _ _ _ _ Hu Hid).
        exists NoWrite. split; [exact I|reflexivity].
    + rewrite (admin_only_anonymous _ _ _ Hu).
      exists NoWrite. split; [exact I|reflexivity].
  - (* edit_post *)
    exists NoWrite. split; [exact I|].
    pose proof (edit_post_never_writes post_id req w) as [Hw _].
    rewrite (handle_request_view _ _ _ Hr) in Hw. simpl view_function in Hw.
    simpl snd in Hw. rewrite Hw. reflexivity.
  - (* delete_post *)
    destruct (visitor w) as [u|] eqn:Hu.
    + destruct (Nat.eq_dec (User.id u) 1) as [Hid|Hid].
      * rewrite (admin_only_admin _ _ _ _ Hu Hid), delete_post_run.
        destruct (find_post post_id (committed w)) as [p|] eqn:Hp.
        -- cbv zeta. destruct (find_post_id _ _ _ Hp) as [Hpid _].
           rewrite Hpid.
           destruct (integrity_ok (store_delete_post post_id (committed w))).
           ++ exists (PostDeleted post_id). split; [|reflexivity].
              simpl. split; [reflexivity|]. split; [now exists u|now exists p].
           ++ exists NoWrite. split; [exact I|reflexivity].
        -- exists NoWrite. split; [exact I|reflexivity].
      * rewrite (admin_only_other_user _ _ _ _ Hu Hid).
        exists NoWrite. split; [exact I|reflexivity].
    + rewrite (admin_only_anonymous _ _ _ Hu).
      exists NoWrite. split; [exact I|reflexivity].
  - exists NoWrite. split; [exact I|reflexivity].
  - exists NoWrite. split; [exact I|reflexivity].
Qed.

Lemma validate_csrf (F : FormClass) (req : Request) :
  validate F req = true -> csrf_valid req = true.
Proof. unfold validate. intros H. now apply andb_true_iff in H. Qed.

(** ** Who can write what *)

(** X1.  A request changes the database only on four routes, and only for
    the visitor the route is for: anyone on register, a logged-in visitor on
    a post's page (a comment), the user with id 1 on create-post and
    delete-post. *)
Theorem writes_need_the_right_visitor (ep : Endpoint) (req : Request)
  (w : World) :
  committed (snd (handle_request ep req w)) <> committed w ->
  ep = E_register
  \/ (exists pid u, ep = E_show_post pid /\ visitor w = Some u)
  \/ ((ep = E_add_new_post \/ exists pid, ep = E_delete_post pid)
      /\ exists u, visitor w = Some u /\ User.id u = 1).
Proof.
  intros Hne. destruct (request_write ep req w) as [wr [Hal Heq]].
  rewrite Heq in Hne. destruct wr as [|u|u pid body|p|pid]; simpl in Hal.
  - now elim Hne.
  - left. tauto.
  - right. left. exists pid, u. tauto.
  - right. right. destruct Hal as (Hep & _ & _ & [u [Hu [Hid _]]] & _).
    split; [now left|]. now exists u.
  - right. right. destruct Hal as (Hep & [u [Hu Hid]] & _).
    split; [right; now exists pid|]. now exists u.
Qed.

(** X2.  The posts table changes only on the create-post and delete-post
    routes, and only when the visitor is the user with id 1: registering,
    logging in or out, commenting and the edit route leave every post as it
    is. *)
Theorem only_admin_changes_posts (ep : Endpoint) (req : Request) (w : World) :
  blog_posts (committed (snd (handle_request ep req w)))
  <> blog_posts (committed w) ->
  (ep = E_add_new_post \/ exists pid, ep = E_delete_post pid)
  /\ exists u, visitor w = Some u /\ User.id u = 1.
Proof.
  intros Hne. destruct (request_write ep req w) as [wr [Hal Heq]].
  rewrite Heq in Hne. destruct wr as [|u|u pid body|p|pid]; simpl in Hal;
    try (now elim Hne).
  - destruct Hal as (Hep & _ & _ & [u [Hu [Hid _]]] & _).
    split; [now left|]. now exists u.
  - destruct Hal as (Hep & [u [Hu Hid]] & _).
    split; [right; now exists pid|]. now exists u.
Qed.

(** X3.  The users table only grows.  No request removes or changes a user
    row (so a stored password hash never changes); the only change is one
    row appended by an accepted registration with an email that is not yet
    in the table, holding the submitted email and name and the hash of the
    submitted password. *)
Theorem users_table_only_grows (ep : Endpoint) (req : Request) (w : World) :
  let us := users (committed w) in
  let us' := users (committed (snd (handle_request ep req w))) in
  us' = us
  \/ (ep = E_register /\ method req = POST /\ validate UserForm req = true
      /\ has_email (form_data "email" req) (committed w) = false
      /\ us' = (us ++ [User.mk (next_id (map User.id us))
                         (form_data "email" req)
                         (generate_password_hash (form_data "password" req)
                                                 (salt req))
                         (form_data "name" req)])%list).
Proof.
  cbv zeta. destruct (request_write ep req w) as [wr [Hal Heq]].
  rewrite Heq. destruct wr as [|u|u pid body|p|pid]; simpl in Hal;
    try (left; reflexivity).
  right. destruct Hal as (Hep & Hm & Hv & Hu & He). subst u.
  repeat split; assumption.
Qed.

(** X4.  The comments table changes in two ways only.  A logged-in visitor's
    accepted comment on an existing post appends one row, whose author is
    that visitor, whose post is the post of the page and whose text is the
    submitted body; the deletion of a post by the user with id 1 clears the
    post reference of that post's comments.  No request removes a comment
    or changes its author or text. *)
Theorem comments_change_by_author_or_deletion (ep : Endpoint) (req : Request)
  (w : World) :
  let cs := comments (committed w) in
  let cs' := comments (committed (snd (handle_request ep req w))) in
  cs' = cs
  \/ (exists pid u,
        ep = E_show_post pid /\ visitor w = Some u
        /\ (exists p, find_post pid (committed w) = Some p)
        /\ cs' = (cs ++ [Comment.mk (next_id (map Comment.id cs))
                           (Some (User.id u)) (Some pid)
                           (form_data "body" req)])%list)
  \/ (exists pid u,
        ep = E_delete_post pid /\ visitor w = Some u /\ User.id u = 1
        /\ cs' = map (detach_comment pid) cs).
Proof.
  cbv zeta. destruct (request_write ep req w) as [wr [Hal Heq]].
  rewrite Heq. destruct wr as [|u|u pid body|p|pid]; simpl in Hal;
    try (left; reflexivity).
  - right. left. exists pid, u.
    destruct Hal as (Hep & _ & _ & Hu & Hp & Hb). subst body.
    repeat split; assumption.
  - right. right. destruct Hal as (Hep & [u [Hu Hid]] & _).
    exists pid, u. repeat split; assumption.
Qed.

(** X5.  Apart from the delete route, the database changes only for a POST
    whose CSRF token checks out: no GET or HEAD request, and no request with
    a bad token, registers a user, adds a comment or creates a post.  The
    delete route is the exception: it writes on GET. *)
Theorem write_needs_post_and_csrf (ep : Endpoint) (req : Request) (w : World) :
  committed (snd (handle_request ep req w)) <> committed w ->
  (exists pid, ep = E_delete_post pid)
  \/ (method req = POST /\ csrf_valid req = true).
Proof.
  intros Hne. destruct (request_write ep req w) as [wr [Hal Heq]].
  rewrite Heq in Hne. destruct wr as [|u|u pid body|p|pid]; simpl in Hal.
  - now elim Hne.
  - right. destruct Hal as (_ & Hm & Hv & _).
    split; [exact Hm|exact (validate_csrf _ _ Hv)].
  - right. destruct Hal as (_ & Hm & Hv & _).
    split; [exact Hm|exact (validate_csrf _ _ Hv)].
  - right. destruct Hal as (_ & Hm & Hv & _).
    split; [exact Hm|exact (validate_csrf _ _ Hv)].
  - left. destruct Hal as (Hep & _). now exists pid.
Qed.

(** ** The login session *)

(** [m] leaves the cookie as it is. *)
Definition keeps_session {A} (m : M A) : Prop :=
  forall w, session (snd (m w)) = session w.

Lemma ks_bind {A B} (m : M A) (f : A -> M B) :
  keeps_session m -> (forall a, keeps_session (f a)) ->
  keeps_session (bind m f).
Proof.
  intros Hm Hf w. unfold bind. specialize (Hm w).
  destruct (m w) as [[a|e] w1]; simpl in *; [|exact Hm].
  now rewrite Hf.
Qed.

Lemma ks_try {A} (m : M A) (handler : Exception -> option (M A)) :
  keeps_session m ->
  (forall e h, handler e = Some h -> keeps_session h) ->
  keeps_session (try_except m handler).
Proof.
  intros Hm Hh w. unfold try_except. specialize (Hm w).
  destruct (m w) as [[a|e] w1]; simpl in *; [exact Hm|].
  destruct (handler e) as [h|] eqn:E; simpl; [|exact Hm].
  now rewrite (Hh e h E).
Qed.

(** A step that is neither [login_user] nor [logout_user]. *)
Ltac ks_step :=
  let w := fresh "w" in
  intro w;
  cbv beta iota delta
    [bind ret raise modify modify_working get_world flash abort
     current_user load_user User_query_get current_user_id
     User_query_filter_by_email_first BlogPost_query_get BlogPost_query_all
     db_session_add_user db_session_add_post db_session_add_comment
     User_comments_append BlogPost_comments_append User_posts_append
     db_session_delete db_session_commit attr BlogPost_author BlogPost_set
     field];
  simpl;
  repeat match goal with
         | |- context [match ?x with _ => _ end] =>
             lazymatch x with
             | context [match _ with _ => _ end] => fail
             | _ => destruct x eqn:?; simpl
             end
         end;
  congruence.

Ltac ks :=
  lazymatch goal with
  | |- keeps_session (bind _ _) => apply ks_bind; [ks | intro; ks]
  | |- keeps_session (try_except _ _) =>
      apply ks_try;
      [ ks
      | let e := fresh "e" in
        let h := fresh "h" in
        let E := fresh "E" in
        intros e h E; destruct e; inversion E; subst; ks ]
  | |- keeps_session (if ?c then _ else _) => destruct c; ks
  | |- keeps_session (match ?x with _ => _ end) => destruct x; ks
  | |- keeps_session _ => ks_step
  end.

(** Only the login and logout views touch the cookie. *)
Lemma view_keeps_session (ep : Endpoint) (req : Request) :
  ep <> E_login -> ep <> E_logout ->
  keeps_session (view_function ep req).
Proof.
  intros Hl Ho.
  destruct ep; try (now elim Hl); try (now elim Ho); simpl view_function;
    unfold admin_only, register, get_all_posts, show_post, add_new_post,
      edit_post, delete_post, about, contact;
    cbv zeta; ks.
Qed.

Lemma session_teardown_view (ep : Endpoint) (req : Request) (w : World) :
  session (snd (handle_request ep req w))
  = if reaches_view ep req
    then session (snd (view_function ep req (begin_request w)))
    else session w.
Proof.
  destruct (reaches_view ep req) eqn:Hr.
  - rewrite (handle_request_view _ _ _ Hr). reflexivity.
  - destruct (handle_request_not_reaching ep req w Hr) as [-> _]. reflexivity.
Qed.

(** X6.  The login session changes in two ways only: the login route binds
    it to the user whose email was submitted, after the form was accepted
    and the password matched the stored hash; the logout route clears it for
    a logged-in visitor.  No other route, and no failed login or
    registration, touches it. *)
Theorem session_changes_only_by_login_or_logout (ep : Endpoint)
  (req : Request) (w : World) :
  let w' := snd (handle_request ep req w) in
  session w' = session w
  \/ (ep = E_login /\ method req = POST /\ validate LoginForm req = true
      /\ exists u,
           find_by_email (form_data "email" req) (committed w) = Some u
           /\ check_password_hash (User.password u) (form_data "password" req)
              = true
           /\ session w' = Some (User.id u))
  \/ (ep = E_logout /\ (exists u, visitor w = Some u) /\ session w' = None).
Proof.
  cbv zeta. rewrite session_teardown_view.
  destruct (reaches_view ep req) eqn:Hr; [|now left].
  destruct ep;
    try (left;
         refine (view_keeps_session _ req _ _ (begin_request w));
         discriminate).
  - (* login *)
    simpl view_function.
    destruct (Method_eqb (method req) POST && validate LoginForm req) eqn:Hacc.
    + apply andb_true_iff in Hacc. destruct Hacc as [Hm Hv].
      apply Method_eqb_POST in Hm. rewrite (login_accepted _ _ Hm Hv).
      destruct (find_by_email _ _) as [u|] eqn:Hf; [|now left].
      destruct (check_password_hash _ _) eqn:Hc; [|now left].
      right. left. repeat split; try assumption. now exists u.
    + rewrite (login_not_accepted _ _ Hacc). now left.
  - (* logout *)
    simpl view_function. rewrite logout_run.
    destruct (visitor w) as [u|] eqn:Hu; [|now left].
    right. right. repeat split. now exists u.
Qed.

Lemma logout_reaches_view (req : Request) :
  method req = GET -> reaches_view E_logout req = true.
Proof. unfold reaches_view. intros ->. reflexivity. Qed.

(** X7.  Logout is for logged-in visitors.  A GET of the logout route by a
    visitor who is not logged in (no cookie, or a cookie naming a user that
    is not in the table) is answered 401 and changes nothing; for a
    logged-in visitor it clears the cookie and redirects to the list,
    leaving the database and the flash messages as they are. *)
Theorem logout_needs_login (req : Request) (w : World) :
  method req = GET ->
  (visitor w = None ->
     handle_request E_logout req w = (HTTPError 401, begin_request w))
  /\ (forall u, visitor w = Some u ->
        handle_request E_logout req w
        = (redirect E_get_all_posts, set_session None (begin_request w))
        /\ visitor (snd (handle_request E_logout req w)) = None).
Proof.
  intros Hm.
  rewrite (handle_request_view _ _ _ (logout_reaches_view _ Hm)).
  simpl view_function. rewrite logout_run.
  split.
  - intros ->. reflexivity.
  - intros u ->. split; reflexivity.
Qed.

(** X8.  Login and logout compose.  After a login that succeeds, the visitor
    is the user who logged in; a GET of the logout route then redirects and
    leaves the visitor anonymous again, a second logout is answered 401,
    and the database is the same throughout. *)
Theorem login_then_logout (lreq oreq : Request) (w : World) (u : User.t) :
  method lreq = POST -> validate LoginForm lreq = true ->
  find_by_email (form_data "email" lreq) (committed w) = Some u ->
  check_password_hash (User.password u) (form_data "password" lreq) = true ->
  integrity_ok (committed w) = true ->
  method oreq = GET ->
  let w1 := snd (handle_request E_login lreq w) in
  let w2 := snd (handle_request E_logout oreq w1) in
  visitor w1 = Some u
  /\ fst (handle_request E_logout oreq w1) = redirect E_get_all_posts
  /\ visitor w2 = None
  /\ session w2 = None
  /\ committed w2 = committed w
  /\ handle_request E_logout oreq w2 = (HTTPError 401, begin_request w2).
Proof.
  intros Hm Hv Hf Hc Hok Ho w1 w2.
  assert (w1 = set_session (Some (User.id u)) (begin_request w)) as Hw1.
  { subst w1.
    rewrite (handle_request_view _ _ _ (POST_to_login_reaches_view _ Hm)).
    simpl view_function. rewrite (login_accepted _ _ Hm Hv), Hf, Hc.
    reflexivity. }
  assert (visitor w1 = Some u) as Hv1.
  { rewrite Hw1. unfold visitor. simpl.
    apply find_by_email_some in Hf. destruct Hf as [_ Hin].
    apply find_user_unique; [|exact Hin].
    unfold integrity_ok in Hok. rewrite !andb_true_iff in Hok. tauto. }
  assert (handle_request E_logout oreq w1
          = (redirect E_get_all_posts, set_session None (begin_request w1)))
    as Hout.
  { rewrite (handle_request_view _ _ _ (logout_reaches_view _ Ho)).
    simpl view_function. rewrite logout_run, Hv1. reflexivity. }
  assert (visitor w2 = None) as Hv2.
  { subst w2. rewrite Hout. reflexivity. }
  split; [exact Hv1|]. split; [now rewrite Hout|]. split; [exact Hv2|].
  split; [subst w2; now rewrite Hout|].
  split; [subst w2; rewrite Hout, Hw1; reflexivity|].
  rewrite (handle_request_view _ _ _ (logout_reaches_view _ Ho)).
  simpl view_function. rewrite logout_run, Hv2. reflexivity.
Qed.

(** ** Creating, listing and deleting posts *)

Lemma find_post_add_post (p : BlogPost.t) (s : Store) :
  find_post (next_id (map BlogPost.id (blog_posts s))) (store_add_post p s)
  = Some (BlogPost.mk (next_id (map BlogPost.id (blog_posts s)))
            (BlogPost.author_id p) (BlogPost.title p) (BlogPost.subtitle p)
            (BlogPost.date p) (BlogPost.body p) (BlogPost.img_url p)).
Proof.
  unfold find_post, store_add_post. simpl.
  pose proof (next_id_fresh (map BlogPost.id (blog_posts s))) as Hf.
  rewrite existsb_map in Hf. revert Hf.
  generalize (next_id (map BlogPost.id (blog_posts s))) as k.
  intros k. induction (blog_posts s) as [|q l IH]; simpl.
  - now rewrite Nat.eqb_refl.
  - intros H. apply orb_false_iff in H. destruct H as [Hq Hl].
    rewrite Nat.eqb_sym, Hq. exact (IH Hl).
Qed.

Lemma find_post_deleted (pid : nat) (s : Store) :
  find_post pid (store_delete_post pid s) = None.
Proof.
  unfold find_post, store_delete_post. simpl.
  destruct (find _ _) as [q|] eqn:Hf; [|reflexivity].
  apply find_some in Hf. destruct Hf as [Hq Hk].
  apply filter_In in Hq. destruct Hq as [_ Hq]. rewrite Hk in Hq.
  discriminate.
Qed.

Lemma POST_to_add_new_post_reaches_view (req : Request) :
  method req = POST -> reaches_view E_add_new_post req = true.
Proof. unfold reaches_view. intros ->. reflexivity. Qed.

Lemma GET_reaches_view (ep : Endpoint) (req : Request) :
  method req = GET -> reaches_view ep req = true.
Proof. unfold reaches_view. intros ->. destruct ep; reflexivity. Qed.

(** The administrator's accepted submission with a fresh title. *)
Lemma add_new_post_by_admin (req : Request) (w : World) (u : User.t) :
  visitor w = Some u -> User.id u = 1 ->
  method req = POST -> validate CreatePostForm req = true ->
  has_title (form_data "title" req) (committed w) = false ->
  integrity_ok (committed w) = true ->
  handle_request E_add_new_post req w
  = (redirect E_get_all_posts,
     let s' := store_add_post (submitted_post u req) (committed w) in
     mkWorld s' s' (session w) (flashes w) [s']).
Proof.
  intros Hu Hid Hm Hv Ht Hok.
  rewrite (handle_request_view _ _ _ (POST_to_add_new_post_reaches_view _ Hm)).
  simpl view_function. rewrite (admin_only_admin _ _ _ _ Hu Hid).
  rewrite (add_new_post_accepted req w u); [|now rewrite
    (validate_on_submit_POST _ _ Hm)|exact Hu].
  cbv zeta. rewrite integrity_add_post, Hok.
  simpl BlogPost.title. rewrite Ht. reflexivity.
Qed.

Lemma store_add_submitted_post (req : Request) (u : User.t) (s : Store) :
  store_add_post (submitted_post u req) s
  = mkStore (users s)
      (blog_posts s ++
         [BlogPost.mk (next_id (map BlogPost.id (blog_posts s)))
            (Some (User.id u)) (form_data "title" req)
            (form_data "subtitle" req) (today req) (form_data "body" req)
            (form_data "img_url" req)])
      (comments s).
Proof. reflexivity. Qed.

(** X9.  The administrator's accepted create-post submission with a title
    that is not in the table appends exactly one post: its author is the
    administrator, its date is the day of the request, its other fields are
    the submitted ones.  Users and comments are unchanged, the answer is a
    redirect to the list, and afterwards the list page shows the old posts
    followed by the new one and the page of the new id shows the new
    post. *)
Theorem add_new_post_publishes (req : Request) (w : World) (u : User.t) :
  visitor w = Some u -> User.id u = 1 ->
  method req = POST -> validate CreatePostForm req = true ->
  has_title (form_data "title" req) (committed w) = false ->
  integrity_ok (committed w) = true ->
  let s := committed w in
  let new_post :=
    BlogPost.mk (next_id (map BlogPost.id (blog_posts s))) (Some 1)
      (form_data "title" req) (form_data "subtitle" req) (today req)
      (form_data "body" req) (form_data "img_url" req) in
  let w1 := snd (handle_request E_add_new_post req w) in
  fst (handle_request E_add_new_post req w) = redirect E_get_all_posts
  /\ blog_posts (committed w1) = (blog_posts s ++ [new_post])%list
  /\ users (committed w1) = users s
  /\ comments (committed w1) = comments s
  /\ (forall greq, method greq = GET ->
        fst (handle_request E_get_all_posts greq w1)
        = render_template "index.html"
            (ctx_all_posts (blog_posts s ++ [new_post])))
  /\ (forall greq, method greq = GET ->
        fst (handle_request (E_show_post (BlogPost.id new_post)) greq w1)
        = render_template "post.html"
            (ctx_post (Some new_post) CreateCommentForm)).
Proof.
  intros Hu Hid Hm Hv Ht Hok s new_post w1. subst s.
  pose proof (add_new_post_by_admin req w u Hu Hid Hm Hv Ht Hok) as Hrun.
  rewrite store_add_submitted_post, Hid in Hrun. fold new_post in Hrun.
  cbv zeta in Hrun. subst w1. rewrite Hrun. simpl.
  split; [reflexivity|]. split; [reflexivity|]. split; [reflexivity|].
  split; [reflexivity|]. split.
  - intros greq Hg.
    rewrite (handle_request_view _ _ _ (GET_reaches_view _ _ Hg)). reflexivity.
  - intros greq Hg.
    rewrite (handle_request_view _ _ _ (GET_reaches_view _ _ Hg)).
    simpl view_function. rewrite show_post_not_accepted
      by (rewrite Hg; reflexivity).
    simpl committed.
    pose proof (find_post_add_post (submitted_post u req) (committed w)) as Hf.
    rewrite store_add_submitted_post in Hf. simpl in Hf. rewrite Hid in Hf.
    fold new_post in Hf. rewrite Hf. reflexivity.
Qed.

(** X10.  A create-post submission whose title is already in the table is
    not caught: the store refuses the commit and the administrator is
    answered 500, not a message as for a duplicate email on register.  The
    database is unchanged and nothing stays pending. *)
Theorem add_new_post_duplicate_title_is_500 (req : Request) (w : World)
  (u : User.t) :
  visitor w = Some u -> User.id u = 1 ->
  method req = POST -> validate CreatePostForm req = true ->
  has_title (form_data "title" req) (committed w) = true ->
  handle_request E_add_new_post req w = (HTTPError 500, begin_request w).
Proof.
  intros Hu Hid Hm Hv Ht.
  rewrite (handle_request_view _ _ _ (POST_to_add_new_post_reaches_view _ Hm)).
  simpl view_function. rewrite (admin_only_admin _ _ _ _ Hu Hid).
  rewrite (add_new_post_accepted req w u); [|now rewrite
    (validate_on_submit_POST _ _ Hm)|exact Hu].
  cbv zeta. rewrite integrity_add_post. simpl BlogPost.title. rewrite Ht.
  rewrite andb_false_r. reflexivity.
Qed.

(** X11.  Deleting is not idempotent.  After the administrator has deleted a
    post, the same request again finds no post, hands the absent record to
    the store session and is answered 500; the second request changes
    nothing. *)
Theorem delete_twice (pid : nat) (req : Request) (w : World) (u : User.t)
  (p : BlogPost.t) :
  visitor w = Some u -> User.id u = 1 ->
  find_post pid (committed w) = Some p ->
  method req = GET ->
  integrity_ok (committed w) = true ->
  let w1 := snd (handle_request (E_delete_post pid) req w) in
  fst (handle_request (E_delete_post pid) req w) = redirect E_get_all_posts
  /\ find_post pid (committed w1) = None
  /\ handle_request (E_delete_post pid) req w1
     = (HTTPError 500, begin_request w1)
  /\ committed (snd (handle_request (E_delete_post pid) req w1))
     = committed w1.
Proof.
  intros Hu Hid Hp Hm Hok w1.
  assert (handle_request (E_delete_post pid) req w
          = (redirect E_get_all_posts,
             let s' := store_delete_post pid (committed w) in
             mkWorld s' s' (session w) (flashes w) [s'])) as Hrun.
  { rewrite (handle_request_view _ _ _ (delete_reaches_view pid _ Hm)).
    simpl view_function. rewrite (admin_only_admin _ _ _ _ Hu Hid).
    rewrite delete_post_run, Hp. cbv zeta.
    destruct (find_post_id _ _ _ Hp) as [-> _].
    rewrite (integrity_delete_post _ _ Hok). reflexivity. }
  assert (visitor w1 = Some u) as Hu1.
  { subst w1. rewrite Hrun. unfold visitor in *. simpl.
    destruct (session w); [exact Hu|discriminate]. }
  assert (find_post pid (committed w1) = None) as Hgone.
  { subst w1. rewrite Hrun. simpl. apply find_post_deleted. }
  assert (handle_request (E_delete_post pid) req w1
          = (HTTPError 500, begin_request w1)) as Hagain.
  { rewrite (handle_request_view _ _ _ (delete_reaches_view pid _ Hm)).
    simpl view_function. rewrite (admin_only_admin _ _ _ _ Hu1 Hid).
    rewrite delete_post_run, Hgone. reflexivity. }
  split; [now rewrite Hrun|]. split; [exact Hgone|].
  split; [exact Hagain|]. now rewrite Hagain.
Qed.

(** X12.  Reading is public and writes nothing.  For every visitor, logged
    in or not, a GET of the list, of a post's page, of the about page or of
    the contact page leaves the world as it was.  The list, about and
    contact pages are answered with their template, the list being handed
    every post of the table in table order; a post's page is answered with
    the post template and the post fetched by the id of the route when the
    store can hold that id, and with 500 when it cannot. *)
Theorem public_pages_change_nothing (req : Request) (w : World) :
  method req = GET ->
  serve E_get_all_posts req w
  = (render_template "index.html" (ctx_all_posts (blog_posts (committed w))),
     begin_request w)
  /\ (forall pid, storable pid = true ->
        serve (E_show_post pid) req w
        = (render_template "post.html"
             (ctx_post (find_post pid (committed w)) CreateCommentForm),
           begin_request w))
  /\ (forall pid, storable pid = false ->
        serve (E_show_post pid) req w = (HTTPError 500, begin_request w))
  /\ serve E_about req w
     = (render_template "about.html" ctx_none, begin_request w)
  /\ serve E_contact req w
     = (render_template "contact.html" ctx_none, begin_request w).
Proof.
  intros Hm.
  rewrite !(serve_view _ _ _ (GET_reaches_view _ _ Hm)).
  split; [reflexivity|]. split; [|split; [|split; reflexivity]].
  - intros pid Hfit.
    rewrite (serve_view _ _ _ (GET_reaches_view _ _ Hm)).
    simpl view_function_bound. unfold bind_key. rewrite Hfit.
    rewrite show_post_not_accepted by (rewrite Hm; reflexivity).
    reflexivity.
  - intros pid Hbig.
    rewrite (serve_view _ _ _ (GET_reaches_view _ _ Hm)).
    simpl view_function_bound.
    rewrite (bind_key_overflow _ _ _ _ Hbig). reflexivity.
Qed.

(** ** References and keys in the reachable worlds *)

Definition user_exists (us : list User.t) (uid : nat) : bool :=
  existsb (fun u => Nat.eqb (User.id u) uid) us.

Definition post_exists (ps : list BlogPost.t) (pid : nat) : bool :=
  existsb (fun p => Nat.eqb (BlogPost.id p) pid) ps.

(** The author of a post is the user with id 1, and that user is in the
    table. *)
Definition post_refs_ok (us : list User.t) (p : BlogPost.t) : bool :=
  match BlogPost.author_id p with
  | Some a => Nat.eqb a 1 && user_exists us a
  | None => false
  end.

(** The author of a comment is in the users table; its post, if it has one,
    is in the posts table. *)
Definition comment_refs_ok (us : list User.t) (ps : list BlogPost.t)
  (c : Comment.t) : bool :=
  match Comment.author_id c with
  | Some a => user_exists us a
  | None => false
  end
  && match Comment.post_id c with
     | Some q => post_exists ps q
     | None => true
     end.

Definition references_resolve (s : Store) : bool :=
  forallb (post_refs_ok (users s)) (blog_posts s)
  && forallb (comment_refs_ok (users s) (blog_posts s)) (comments s).

Lemma forallb_impl {A} (f g : A -> bool) (l : list A) :
  (forall x, f x = true -> g x = true) ->
  forallb f l = true -> forallb g l = true.
Proof.
  intros H. rewrite !forallb_forall. intros Hf x Hx. now apply H, Hf.
Qed.

Lemma forallb_filter_keep {A} (f g : A -> bool) (l : list A) :
  forallb f l = true -> forallb f (filter g l) = true.
Proof.
  rewrite !forallb_forall. intros Hf x Hx. apply Hf.
  now apply filter_In in Hx.
Qed.

Lemma user_exists_more (us : list User.t) (u : User.t) (uid : nat) :
  user_exists us uid = true -> user_exists (us ++ [u]) uid = true.
Proof.
  unfold user_exists. rewrite existsb_app. intros ->. reflexivity.
Qed.

Lemma post_exists_more (ps : list BlogPost.t) (p : BlogPost.t) (pid : nat) :
  post_exists ps pid = true -> post_exists (ps ++ [p]) pid = true.
Proof.
  unfold post_exists. rewrite existsb_app. intros ->. reflexivity.
Qed.

Lemma post_exists_other (ps : list BlogPost.t) (pid q : nat) :
  q <> pid -> post_exists ps q = true ->
  post_exists (filter (fun p => negb (Nat.eqb (BlogPost.id p) pid)) ps) q
  = true.
Proof.
  unfold post_exists. intros Hne H. apply existsb_exists in H.
  destruct H as [p [Hin Hp]]. apply existsb_exists. exists p.
  split; [|exact Hp]. apply filter_In. split; [exact Hin|].
  apply Nat.eqb_eq in Hp. apply negb_true_iff, Nat.eqb_neq. congruence.
Qed.

Lemma visitor_exists (w : World) (u : User.t) :
  visitor w = Some u -> user_exists (users (committed w)) (User.id u) = true.
Proof.
  unfold visitor. destruct (session w) as [uid|]; [|discriminate].
  intros H. unfold find_user in H. apply find_some in H.
  destruct H as [Hin _]. apply existsb_exists. exists u.
  split; [exact Hin|apply Nat.eqb_refl].
Qed.

Lemma found_post_exists (pid : nat) (s : Store) (p : BlogPost.t) :
  find_post pid s = Some p -> post_exists (blog_posts s) pid = true.
Proof.
  unfold find_post, post_exists. intros H. rewrite find_existsb, H.
  reflexivity.
Qed.

Lemma comment_refs_more_users (us : list User.t) (u : User.t)
  (ps : list BlogPost.t) (c : Comment.t) :
  comment_refs_ok us ps c = true -> comment_refs_ok (us ++ [u]) ps c = true.
Proof.
  unfold comment_refs_ok. rewrite !andb_true_iff. intros [Ha Hp].
  split; [|exact Hp]. destruct (Comment.author_id c); [|discriminate].
  now apply user_exists_more.
Qed.

Lemma comment_refs_more_posts (us : list User.t) (ps : list BlogPost.t)
  (p : BlogPost.t) (c : Comment.t) :
  comment_refs_ok us ps c = true -> comment_refs_ok us (ps ++ [p]) c = true.
Proof.
  unfold comment_refs_ok. rewrite !andb_true_iff. intros [Ha Hp].
  split; [exact Ha|]. destruct (Comment.post_id c); [|reflexivity].
  now apply post_exists_more.
Qed.

Lemma post_refs_more_users (us : list User.t) (u : User.t) (p : BlogPost.t) :
  post_refs_ok us p = true -> post_refs_ok (us ++ [u]) p = true.
Proof.
  unfold post_refs_ok. destruct (BlogPost.author_id p); [|discriminate].
  rewrite !andb_true_iff. intros [H1 Hx]. split; [exact H1|].
  now apply user_exists_more.
Qed.

Lemma comment_refs_detached (us : list User.t) (ps : list BlogPost.t)
  (pid : nat) (c : Comment.t) :
  comment_refs_ok us ps c = true ->
  comment_refs_ok us
    (filter (fun p => negb (Nat.eqb (BlogPost.id p) pid)) ps)
    (detach_comment pid c) = true.
Proof.
  unfold comment_refs_ok, detach_comment. rewrite !andb_true_iff.
  intros [Ha Hp]. destruct (Comment.post_id c) as [q|] eqn:Hq.
  - destruct (Nat.eqb q pid) eqn:E; simpl.
    + split; [exact Ha|reflexivity].
    + rewrite Hq. split; [exact Ha|].
      apply Nat.eqb_neq in E. now apply post_exists_other.
  - rewrite Hq. split; [exact Ha|reflexivity].
Qed.

(** Each of the four writes keeps the references resolved. *)
Lemma write_keeps_references (ep : Endpoint) (req : Request) (w : World)
  (wr : Write) :
  write_allowed ep req w wr ->
  references_resolve (committed w) = true ->
  references_resolve (apply_write wr (committed w)) = true.
Proof.
  intros Hal Hok. unfold references_resolve in *.
  apply andb_true_iff in Hok. destruct Hok as [Hps Hcs].
  destruct wr as [|u|u pid body|p|pid]; simpl in *.
  - now rewrite Hps, Hcs.
  - apply andb_true_iff. split.
    + eapply forallb_impl; [|exact Hps]. intros p. apply post_refs_more_users.
    + eapply forallb_impl; [|exact Hcs]. intros c.
      apply comment_refs_more_users.
  - destruct Hal as (_ & _ & _ & Hu & [p Hp] & _).
    rewrite Hps, forallb_app, Hcs. simpl.
    unfold comment_refs_ok. simpl.
    rewrite (visitor_exists _ _ Hu), (found_post_exists _ _ _ Hp).
    reflexivity.
  - destruct Hal as (_ & _ & _ & [u [Hu [Hid Hp]]] & _). subst p.
    apply andb_true_iff. split.
    + rewrite forallb_app, Hps. simpl. unfold post_refs_ok. simpl.
      rewrite (visitor_exists _ _ Hu), Hid. reflexivity.
    + eapply forallb_impl; [|exact Hcs]. intros c.
      apply comment_refs_more_posts.
  - apply andb_true_iff. split.
    + now apply forallb_filter_keep.
    + apply forallb_forall. intros c' Hc'. apply in_map_iff in Hc'.
      destruct Hc' as [c [<- Hc]]. apply comment_refs_detached.
      rewrite forallb_forall in Hcs. now apply Hcs.
Qed.

(** X13.  In every world the application reaches from the empty database,
    no reference dangles: the author of every post is the user with id 1,
    who is in the users table; the author of every comment is in the users
    table; and the post of every comment is a post of the posts table,
    unless the comment has lost its post to a deletion.  The constraints of
    the schema hold and nothing is pending between two requests. *)
Theorem reachable_references_resolve (w : World) :
  reachable w ->
  references_resolve (committed w) = true
  /\ integrity_ok (committed w) = true
  /\ working w = committed w.
Proof.
  intros Hr. split; [|split].
  - induction Hr as [|ep req w Hr IH]; [reflexivity|].
    destruct (request_write ep req w) as [wr [Hal Heq]]. rewrite Heq.
    now apply (write_keeps_references ep req).
  - now apply reachable_integrity.
  - now apply reachable_settled.
Qed.

Lemma list_max_seq (n : nat) : list_max (seq 1 n) = n.
Proof.
  induction n as [|n IH]; [reflexivity|].
  rewrite seq_S, list_max_app, IH. simpl. lia.
Qed.

(** X14.  User keys count up from 1 in registration order: in every
    reachable world the keys of the users table are 1, 2, ..., n.  So the
    user the admin gate lets through, the one with id 1, is the first user
    who ever registered, and no later registration yields another. *)
Theorem reachable_user_keys_count_up (w : World) :
  reachable w ->
  let us := users (committed w) in
  map User.id us = seq 1 (List.length us)
  /\ (forall u, find_user 1 (committed w) = Some u -> hd_error us = Some u).
Proof.
  intros Hr us.
  assert (map User.id us = seq 1 (List.length us)) as Hids.
  { subst us. induction Hr as [|ep req w Hr IH]; [reflexivity|].
    destruct (request_write ep req w) as [wr [Hal Heq]]. rewrite Heq.
    destruct wr as [|u|u pid body|p|pid]; simpl; try exact IH.
    rewrite map_app, length_app, IH. simpl.
    rewrite Nat.add_1_r, seq_S. f_equal. f_equal.
    unfold next_id. rewrite list_max_seq. reflexivity. }
  split; [exact Hids|].
  intros u. unfold find_user. subst us.
  destruct (users (committed w)) as [|u0 rest]; simpl in *; [discriminate|].
  injection Hids as H1 _. rewrite H1. simpl. now intros [= ->].
Qed.

(** ** From registration to the admin gate *)

(** An accepted registration with a fresh email, and the login that
    follows it with the same fields. *)
Lemma register_fresh (req : Request) (w : World) :
  method req = POST -> validate UserForm req = true ->
  integrity_ok (committed w) = true ->
  has_email (form_data "email" req) (committed w) = false ->
  handle_request E_register req w
  = (redirect E_get_all_posts,
     let s' := store_add_user (submitted_user req) (committed w) in
     mkWorld s' s' (session w) (flashes w) [s']).
Proof.
  intros Hm Hv Hok Hfresh.
  rewrite (handle_request_view _ _ _ (POST_to_register_reaches_view _ Hm)).
  simpl view_function. rewrite (register_accepted _ _ Hm Hv). cbv zeta.
  fold (submitted_user req).
  rewrite integrity_add_user, Hok. simpl User.email. rewrite Hfresh.
  reflexivity.
Qed.

Lemma login_after_register (req lreq : Request) (w : World) :
  method req = POST -> validate UserForm req = true ->
  integrity_ok (committed w) = true ->
  has_email (form_data "email" req) (committed w) = false ->
  check_password_hash
    (generate_password_hash (form_data "password" req) (salt req))
    (form_data "password" req) = true ->
  method lreq = POST -> form lreq = form req -> csrf_valid lreq = true ->
  let new_user :=
    User.mk (next_id (map User.id (users (committed w))))
      (form_data "email" req)
      (generate_password_hash (form_data "password" req) (salt req))
      (form_data "name" req) in
  let s' := store_add_user (submitted_user req) (committed w) in
  let w1 := snd (handle_request E_register req w) in
  handle_request E_login lreq w1
  = (redirect E_get_all_posts,
     mkWorld s' s' (Some (User.id new_user)) (flashes w) [])
  /\ visitor (snd (handle_request E_login lreq w1)) = Some new_user
  /\ integrity_ok s' = true.
Proof.
  intros Hm Hv Hok Hfresh Hcheck Hlm Hlf Hlc new_user s' w1.
  subst w1. rewrite (register_fresh _ _ Hm Hv Hok Hfresh). cbv zeta.
  fold s'. simpl snd.
  pose proof (validate_LoginForm_of_UserForm _ _ Hv Hlf Hlc) as Hlv.
  rewrite (handle_request_view _ _ _ (POST_to_login_reaches_view _ Hlm)).
  simpl view_function. rewrite (login_accepted _ _ Hlm Hlv).
  rewrite !(form_data_same _ _ _ Hlf). simpl committed.
  pose proof (find_by_email_add_user (submitted_user req) (committed w)
                Hfresh) as Hfind.
  simpl in Hfind. fold new_user s' in Hfind. rewrite Hfind.
  simpl User.password. rewrite Hcheck. simpl.
  split; [reflexivity|]. split.
  - unfold visitor. simpl.
    exact (find_user_add_user (submitted_user req) (committed w)).
  - unfold s'. rewrite integrity_add_user, Hok. simpl User.email.
    now rewrite Hfresh.
Qed.

(** X15.  The first user is the administrator.  On an empty users table, a
    visitor who registers and then logs in with the same email and password
    has id 1; a create-post submission that the form accepts, with a title
    that is not taken, then goes through the admin gate and adds the post,
    authored by that user. *)
Theorem first_user_is_administrator (rreq lreq preq : Request) (w : World) :
  users (committed w) = [] ->
  integrity_ok (committed w) = true ->
  method rreq = POST -> validate UserForm rreq = true ->
  check_password_hash
    (generate_password_hash (form_data "password" rreq) (salt rreq))
    (form_data "password" rreq) = true ->
  method lreq = POST -> form lreq = form rreq -> csrf_valid lreq = true ->
  method preq = POST -> validate CreatePostForm preq = true ->
  has_title (form_data "title" preq) (committed w) = false ->
  let first_user :=
    User.mk 1 (form_data "email" rreq)
      (generate_password_hash (form_data "password" rreq) (salt rreq))
      (form_data "name" rreq) in
  let new_post :=
    BlogPost.mk (next_id (map BlogPost.id (blog_posts (committed w))))
      (Some 1) (form_data "title" preq) (form_data "subtitle" preq)
      (today preq) (form_data "body" preq) (form_data "img_url" preq) in
  let w1 := snd (handle_request E_register rreq w) in
  let w2 := snd (handle_request E_login lreq w1) in
  let w3 := snd (handle_request E_add_new_post preq w2) in
  users (committed w1) = [first_user]
  /\ visitor w2 = Some first_user
  /\ fst (handle_request E_add_new_post preq w2) = redirect E_get_all_posts
  /\ blog_posts (committed w3)
     = (blog_posts (committed w) ++ [new_post])%list.
Proof.
  intros Hempty Hok Hm Hv Hcheck Hlm Hlf Hlc Hpm Hpv Ht
         first_user new_post w1 w2 w3.
  assert (has_email (form_data "email" rreq) (committed w) = false) as Hfresh.
  { unfold has_email. now rewrite Hempty. }
  destruct (login_after_register rreq lreq w Hm Hv Hok Hfresh Hcheck
              Hlm Hlf Hlc) as (Hlogin & Hvis & Hok1).
  cbv zeta in Hlogin, Hvis, Hok1. rewrite Hempty in Hvis. simpl in Hvis.
  fold first_user w1 in Hvis. fold w2 in Hvis.
  assert (users (committed w1) = [first_user]) as Hus.
  { subst w1. rewrite (register_fresh _ _ Hm Hv Hok Hfresh). simpl.
    now rewrite Hempty. }
  assert (committed w2
          = store_add_user (submitted_user rreq) (committed w)) as Hc2.
  { subst w2. fold w1 in Hlogin. now rewrite Hlogin. }
  assert (has_title (form_data "title" preq) (committed w2) = false) as Ht2.
  { rewrite Hc2. exact Ht. }
  assert (integrity_ok (committed w2) = true) as Hok2.
  { now rewrite Hc2. }
  pose proof (add_new_post_by_admin preq w2 first_user Hvis eq_refl Hpm Hpv
                Ht2 Hok2) as Hrun.
  split; [exact Hus|]. split; [exact Hvis|]. split; [now rewrite Hrun|].
  subst w3. rewrite Hrun. cbv zeta. simpl. rewrite Hc2. reflexivity.
Qed.

(** X16.  Every later user is refused with 500.  When the user with id 1
    is already in the table, a visitor who registers a fresh email and logs
    in gets an id other than 1, and each request to a gated route (create,
    edit, delete post) that reaches the view is answered 500 and changes
    nothing. *)
Theorem later_users_get_500 (rreq lreq greq : Request) (w : World)
  (a : User.t) (ep : Endpoint) (v : View) :
  find_user 1 (committed w) = Some a ->
  integrity_ok (committed w) = true ->
  method rreq = POST -> validate UserForm rreq = true ->
  has_email (form_data "email" rreq) (committed w) = false ->
  check_password_hash
    (generate_password_hash (form_data "password" rreq) (salt rreq))
    (form_data "password" rreq) = true ->
  method lreq = POST -> form lreq = form rreq -> csrf_valid lreq = true ->
  gated_view ep = Some v -> reaches_view ep greq = true ->
  let w1 := snd (handle_request E_register rreq w) in
  let w2 := snd (handle_request E_login lreq w1) in
  (exists u, visitor w2 = Some u /\ 1 < User.id u
             /\ User.email u = form_data "email" rreq)
  /\ handle_request ep greq w2 = (HTTPError 500, begin_request w2).
Proof.
  intros Ha Hok Hm Hv Hfresh Hcheck Hlm Hlf Hlc Hg Hr w1 w2.
  destruct (login_after_register rreq lreq w Hm Hv Hok Hfresh Hcheck
              Hlm Hlf Hlc) as (_ & Hvis & _).
  cbv zeta in Hvis. fold w1 in Hvis. fold w2 in Hvis.
  assert (1 < next_id (map User.id (users (committed w)))) as Hlt.
  { apply next_id_above. unfold find_user in Ha. apply find_some in Ha.
    destruct Ha as [Hin Hid]. apply Nat.eqb_eq in Hid. rewrite <- Hid.
    now apply in_map. }
  split.
  - eexists. split; [exact Hvis|]. split; [exact Hlt|reflexivity].
  - rewrite (handle_request_view _ _ _ Hr).
    rewrite (gated_view_function _ _ Hg).
    rewrite (admin_only_other_user _ _ _ _ Hvis); [reflexivity|].
    simpl. lia.
Qed.

(** ** The forms *)

Lemma field_ok_missing (req : Request) (fname : string) (v : Validator)
  (vs : list Validator) :
  form_get fname req = None -> field_ok req (fname, v :: vs) = false.
Proof. unfold field_ok. simpl. intros ->. reflexivity. Qed.

(** X17.  A submission that lacks a field on which the form declares a
    validator is rejected, whatever the validators would accept: the form
    does not validate, so neither does [validate_on_submit]. *)
Theorem missing_field_fails_validation (F : FormClass) (fname : string)
  (v : Validator) (vs : list Validator) (req : Request) :
  In (fname, v :: vs) F ->
  form_get fname req = None ->
  validate F req = false /\ validate_on_submit F req = false.
Proof.
  intros Hin Hmiss.
  assert (forallb (field_ok req) F = false) as Hf.
  { destruct (forallb (field_ok req) F) eqn:E; [|reflexivity].
    rewrite forallb_forall in E. specialize (E _ Hin).
    now rewrite (field_ok_missing _ _ _ _ Hmiss) in E. }
  assert (validate F req = false) as Hv.
  { unfold validate. rewrite Hf. apply andb_false_r. }
  split; [exact Hv|]. unfold validate_on_submit. rewrite Hv.
  apply andb_false_r.
Qed.

(** X18.  The login form is the register form without the rule on the
    name: [LoginForm] declares [name] again as a hidden field with no
    validator, so a submission passes the register form exactly when it
    passes the login form and its name passes [DataRequired]. *)
Theorem UserForm_is_LoginForm_plus_name (req : Request) :
  validate UserForm req
  = validate LoginForm req
    && run_validator DataRequired (form_get "name" req).
Proof.
  unfold validate, UserForm, LoginForm, field_ok. simpl.
  destruct (csrf_valid req),
    (run_validator DataRequired (form_get "email" req)),
    (run_validator Email (form_get "email" req)),
    (run_validator DataRequired (form_get "password" req)),
    (run_validator DataRequired (form_get "name" req)); reflexivity.
Qed.

End Handlers.

(** * The handlers on the sample store *)

Definition sample_handle_request : Endpoint -> Request -> World
                                   -> Response * World :=
  handle_request sample_data_required sample_is_url sample_is_email
    sample_generate_password_hash sample_check_password_hash.

Definition sample_validate : FormClass -> Request -> bool :=
  validate sample_data_required sample_is_url sample_is_email.

Definition sample_serve : Endpoint -> Request -> World -> Response * World :=
  serve sample_data_required sample_is_url sample_is_email
    sample_generate_password_hash sample_check_password_hash.

(** The smallest id the store cannot hold. *)
Definition large_key : nat := N.to_nat (2 ^ 63)%N.

Lemma large_key_unstorable : storable large_key = false.
Proof. unfold storable, large_key. rewrite N2Nat.id. reflexivity. Qed.

(** A store whose keys all fit has no row for an id that does not. *)
Lemma unstorable_key_absent (pid : nat) (s : Store) :
  forallb (fun p => storable (BlogPost.id p)) (blog_posts s) = true ->
  storable pid = false ->
  find_post pid s = None.
Proof.
  intros Hall Hbig.
  destruct (find_post pid s) as [p|] eqn:E; [|reflexivity].
  apply find_post_id in E. destruct E as [Hid Hin].
  rewrite forallb_forall in Hall. specialize (Hall p Hin).
  rewrite Hid, Hbig in Hall. discriminate Hall.
Qed.

Lemma large_key_absent : find_post large_key sample_store = None.
Proof.
  apply unstorable_key_absent; [reflexivity|apply large_key_unstorable].
Qed.

(** C5 (the code at the failing input).  The administrator submits the edit
    form of an existing post with an image field that is not URL-shaped.  The
    edit route is registered for GET only, so the submission is answered 405
    Method Not Allowed: the store is unchanged, and the form is not presented
    again.  The same submission to the create route is presented the form
    again. *)
Theorem edit_submission_is_not_presented_again :
  let w := world_of sample_store (Some 1) in
  let bad := request_of POST (post_fields "not a url") in
  visitor w = Some admin_user
  /\ find_post 1 (committed w) = Some first_post
  /\ sample_validate CreatePostForm bad = false
  /\ sample_handle_request (E_edit_post 1) bad w = (HTTPError 405, w)
  /\ sample_handle_request E_add_new_post bad w
     = (render_template "make-post.html" (ctx_form CreatePostForm), w).
Proof.
  cbv zeta. split; [reflexivity|]. split; [reflexivity|].
  split; [reflexivity|]. split; reflexivity.
Qed.

(** C6 (the code at the failing input).  The administrator submits the edit
    form of an existing post with valid fields.  The submission is answered
    405; a GET of the same route is answered 403, because [post.author]
    raises the [AttributeError] that the admin gate catches.  No request to
    the edit route changes the post or is redirected to its view page. *)
Theorem edit_submission_updates_nothing :
  let w := world_of sample_store (Some 1) in
  let good := request_of POST (post_fields "http://x.com/new.png") in
  visitor w = Some admin_user
  /\ find_post 1 (committed w) = Some first_post
  /\ sample_validate CreatePostForm good = true
  /\ sample_handle_request (E_edit_post 1) good w = (HTTPError 405, w)
  /\ sample_handle_request (E_edit_post 1) (request_of GET (post_fields
       "http://x.com/new.png")) w = (HTTPError 403, w)
  /\ (forall req,
        committed (snd (sample_handle_request (E_edit_post 1) req w))
        = committed w
        /\ fst (sample_handle_request (E_edit_post 1) req w)
           <> redirect (E_show_post 1)).
Proof.
  cbv zeta. split; [reflexivity|]. split; [reflexivity|].
  split; [reflexivity|]. split; [reflexivity|]. split; [reflexivity|].
  intros req. unfold sample_handle_request.
  destruct (edit_post_never_writes sample_data_required sample_is_url
              sample_is_email sample_generate_password_hash
              sample_check_password_hash 1 req
              (world_of sample_store (Some 1))) as [Hw Hr].
  rewrite Hw. split; [reflexivity|].
  destruct Hr as [Hr|[Hr|[Hr|Hr]]]; rewrite Hr; discriminate.
Qed.

(** C7 (counterexample).  Post 9 is not in the sample store.  An anonymous
    visitor's accepted comment on it is answered with the redirect to login
    (status 302), exactly like the same comment on the existing post 1: it is
    neither a not-found answer nor a server error.  The administrator's GET
    of the edit route for post 9 is answered 403. *)
Lemma absent_post_comment_redirects_to_login :
  let w := world_of sample_store None in
  let req := request_of POST comment_fields in
  find_post 9 (committed w) = None
  /\ fst (sample_handle_request (E_show_post 9) req w) = redirect E_login
  /\ fst (sample_handle_request (E_show_post 1) req w) = redirect E_login
  /\ status_code (fst (sample_handle_request (E_show_post 9) req w)) = 302
  /\ not_found_or_server_error
       (fst (sample_handle_request (E_show_post 9) req w)) = false
  /\ not_found_or_server_error
       (fst (sample_handle_request (E_edit_post 9) (request_of GET [])
               (world_of sample_store (Some 1)))) = false.
Proof.
  cbv zeta. repeat split.
Qed.

(** C8 (counterexample).  The second user comments on post 1.  The request
    performs one commit, not two; the comment it adds is committed with its
    author and its post, and no committed snapshot holds a comment without
    references. *)
Lemma comment_path_commits_once :
  let w := world_of sample_store (Some 2) in
  let w' := snd (sample_handle_request (E_show_post 1)
                   (request_of POST comment_fields) w) in
  commits w' = 1
  /\ commits w' <> 2
  /\ comments (committed w')
     = [first_comment; Comment.mk 2 (Some 2) (Some 1) "Hi"]
  /\ commit_log w' = [committed w']
  /\ forallb (fun s => forallb has_references (comments s)) (commit_log w')
     = true.
Proof.
  cbv zeta. split; [reflexivity|]. split; [discriminate|].
  split; [reflexivity|]. split; reflexivity.
Qed.

(** * The theorems at concrete requests *)

(** C1 at the sample store: the second user, logged in, asks for each gated
    route. *)
Lemma admin_only_non_admin_gets_500_witness :
  let w := world_of sample_store (Some 2) in
  let submit := request_of POST (post_fields "http://x.com/i.png") in
  let get := request_of GET [] in
  visitor w = Some second_user
  /\ sample_handle_request E_add_new_post submit w = (HTTPError 500, w)
  /\ sample_handle_request (E_edit_post 1) get w = (HTTPError 500, w)
  /\ sample_handle_request (E_delete_post 1) get w = (HTTPError 500, w).
Proof.
  cbv zeta. split; [reflexivity|].
  assert (User.id second_user <> 1) as Hid by discriminate.
  split; [|split].
  - exact (proj1 (proj2 (admin_only_non_admin_gets_500
             sample_data_required sample_is_url sample_is_email
             sample_generate_password_hash sample_check_password_hash
             E_add_new_post _ (request_of POST (post_fields "http://x.com/i.png"))
             (world_of sample_store (Some 2)) second_user
             eq_refl eq_refl eq_refl Hid))).
  - exact (proj1 (proj2 (admin_only_non_admin_gets_500
             sample_data_required sample_is_url sample_is_email
             sample_generate_password_hash sample_check_password_hash
             (E_edit_post 1) _ (request_of GET [])
             (world_of sample_store (Some 2)) second_user
             eq_refl eq_refl eq_refl Hid))).
  - exact (proj1 (proj2 (admin_only_non_admin_gets_500
             sample_data_required sample_is_url sample_is_email
             sample_generate_password_hash sample_check_password_hash
             (E_delete_post 1) _ (request_of GET [])
             (world_of sample_store (Some 2)) second_user
             eq_refl eq_refl eq_refl Hid))).
Defined.

(** C2 at the sample store: the email of the second user is registered
    again, and a fresh email is registered. *)
Lemma register_duplicate_email_or_new_user_witness :
  (let w' := snd (sample_handle_request E_register
                    (request_of POST (user_fields "a@x.com" "pw2" "Al"))
                    (world_of sample_store None)) in
   committed w' = sample_store /\ count_email "a@x.com" (committed w') = 1)
  /\ users (committed (snd (sample_handle_request E_register
                (request_of POST (user_fields "b@x.com" "pw2" "Bea"))
                (world_of sample_store None))))
     = [admin_user; second_user; User.mk 3 "b@x.com" "salt1234$pw2" "Bea"].
Proof.
  split.
  - pose proof (register_duplicate_email_or_new_user
                  sample_data_required sample_is_url sample_is_email
                  sample_generate_password_hash sample_check_password_hash
                  (request_of POST (user_fields "a@x.com" "pw2" "Al"))
                  (world_of sample_store None) eq_refl eq_refl eq_refl) as H.
    cbv zeta in H. destruct H as [Hdup _].
    destruct (Hdup eq_refl) as (_ & _ & Hc & _ & _ & Hn).
    split; [exact Hc | exact Hn].
  - pose proof (register_duplicate_email_or_new_user
                  sample_data_required sample_is_url sample_is_email
                  sample_generate_password_hash sample_check_password_hash
                  (request_of POST (user_fields "b@x.com" "pw2" "Bea"))
                  (world_of sample_store None) eq_refl eq_refl eq_refl) as H.
    cbv zeta in H. destruct H as [_ Hnew].
    destruct (Hnew eq_refl) as (_ & Hu & _). exact Hu.
Defined.

(** C3 at the sample store: the second user logs in with the right and with
    a wrong password, and an unknown email is tried. *)
Lemma login_three_outcomes_witness :
  session (snd (sample_handle_request E_login
                  (request_of POST (user_fields "a@x.com" "pw" ""))
                  (world_of sample_store None))) = Some 2
  /\ (fst (sample_handle_request E_login
             (request_of POST (user_fields "a@x.com" "wrong" ""))
             (world_of sample_store None)) = redirect E_login
      /\ flashes (snd (sample_handle_request E_login
             (request_of POST (user_fields "a@x.com" "wrong" ""))
             (world_of sample_store None))) = ["Wrong password."]
      /\ session (snd (sample_handle_request E_login
             (request_of POST (user_fields "a@x.com" "wrong" ""))
             (world_of sample_store None))) = None)
  /\ flashes (snd (sample_handle_request E_login
             (request_of POST (user_fields "z@x.com" "pw" ""))
             (world_of sample_store None))) = ["Email address not found."].
Proof.
  split; [|split].
  - pose proof (login_three_outcomes
                  sample_data_required sample_is_url sample_is_email
                  sample_generate_password_hash sample_check_password_hash
                  (request_of POST (user_fields "a@x.com" "pw" ""))
                  (world_of sample_store None) eq_refl eq_refl) as H.
    cbv zeta in H. destruct H as (_ & _ & _ & Hok).
    destruct (Hok second_user eq_refl eq_refl) as (_ & _ & Hs & _). exact Hs.
  - pose proof (login_three_outcomes
                  sample_data_required sample_is_url sample_is_email
                  sample_generate_password_hash sample_check_password_hash
                  (request_of POST (user_fields "a@x.com" "wrong" ""))
                  (world_of sample_store None) eq_refl eq_refl) as H.
    cbv zeta in H. destruct H as (_ & _ & Hbad & _).
    exact (Hbad second_user eq_refl eq_refl).
  - pose proof (login_three_outcomes
                  sample_data_required sample_is_url sample_is_email
                  sample_generate_password_hash sample_check_password_hash
                  (request_of POST (user_fields "z@x.com" "pw" ""))
                  (world_of sample_store None) eq_refl eq_refl) as H.
    cbv zeta in H. destruct H as (_ & Hnone & _).
    destruct (Hnone eq_refl) as (_ & Hf & _). exact Hf.
Defined.


(** C7 (amended) at the sample store: the administrator asks to delete and
    to edit post 9, which is not there, and a visitor asks for the page of
    an id the store cannot hold. *)
Lemma absent_post_outcomes_witness :
  sample_serve (E_delete_post 9) (request_of GET [])
    (world_of sample_store (Some 1))
  = (HTTPError 500, world_of sample_store (Some 1))
  /\ sample_serve (E_edit_post 9) (request_of GET [])
       (world_of sample_store (Some 1))
     = (HTTPError 403, world_of sample_store (Some 1))
  /\ sample_serve (E_show_post large_key) (request_of GET [])
       (world_of sample_store None)
     = (HTTPError 500, world_of sample_store None).
Proof.
  split; [|split].
  - pose proof (absent_post_outcomes
                  sample_data_required sample_is_url sample_is_email
                  sample_generate_password_hash sample_check_password_hash
                  9 (request_of GET []) (world_of sample_store (Some 1))
                  eq_refl) as H.
    destruct H as (_ & H). destruct (H eq_refl) as (_ & Hdel & _).
    exact (Hdel admin_user eq_refl eq_refl eq_refl).
  - pose proof (absent_post_outcomes
                  sample_data_required sample_is_url sample_is_email
                  sample_generate_password_hash sample_check_password_hash
                  9 (request_of GET []) (world_of sample_store (Some 1))
                  eq_refl) as H.
    destruct H as (_ & H). destruct (H eq_refl) as (_ & _ & Hedit & _).
    exact (Hedit admin_user eq_refl eq_refl eq_refl).
  - pose proof (absent_post_outcomes
                  sample_data_required sample_is_url sample_is_email
                  sample_generate_password_hash sample_check_password_hash
                  large_key (request_of GET []) (world_of sample_store None)
                  large_key_absent) as H.
    destruct H as (H & _). destruct (H large_key_unstorable) as (Hview & _).
    exact (Hview eq_refl).
Defined.

(** C8 (amended) at the sample store: the second user comments on post 1. *)
Lemma one_commit_per_request_witness :
  sample_handle_request (E_show_post 1) (request_of POST comment_fields)
    (world_of sample_store (Some 2))
  = (render_template "post.html" (ctx_post (Some first_post) CreateCommentForm),
     let s3 := mkStore [admin_user; second_user] [first_post]
                 [first_comment; Comment.mk 2 (Some 2) (Some 1) "Hi"] in
     mkWorld s3 s3 (Some 2) [] [s3]).
Proof.
  pose proof (one_commit_per_request
                sample_data_required sample_is_url sample_is_email
                sample_generate_password_hash sample_check_password_hash
                1 (request_of POST comment_fields)
                (world_of sample_store (Some 2)) second_user first_post
                eq_refl eq_refl eq_refl eq_refl eq_refl) as H.
  cbv zeta in H. destruct H as (_ & _ & _ & _ & Hrun). exact Hrun.
Defined.

(** C9 at the sample store: the administrator deletes post 1, which has one
    comment. *)
Lemma delete_post_removes_only_the_post_witness :
  let s' := committed (snd (sample_handle_request (E_delete_post 1)
                              (request_of GET [])
                              (world_of sample_store (Some 1)))) in
  users s' = [admin_user; second_user]
  /\ List.length (blog_posts s') + 1 = 1
  /\ map Comment.id (comments s') = [1].
Proof.
  pose proof (delete_post_removes_only_the_post
                sample_data_required sample_is_url sample_is_email
                sample_generate_password_hash sample_check_password_hash
                1 (request_of GET []) (world_of sample_store (Some 1))
                admin_user first_post
                eq_refl eq_refl eq_refl eq_refl eq_refl) as H.
  cbv zeta in H. destruct H as (_ & Hu & _ & Hl & _ & _ & Hc & _).
  cbv zeta. split; [exact Hu|]. split; [exact Hl | exact Hc].
Defined.


(** * The further theorems at concrete requests *)

(** X1 at the sample store: the second user's comment on post 1. *)
Lemma writes_need_the_right_visitor_witness :
  E_show_post 1 = E_register
  \/ (exists pid u,
        E_show_post 1 = E_show_post pid
        /\ visitor (world_of sample_store (Some 2)) = Some u)
  \/ ((E_show_post 1 = E_add_new_post
       \/ exists pid, E_show_post 1 = E_delete_post pid)
      /\ exists u, visitor (world_of sample_store (Some 2)) = Some u
                   /\ User.id u = 1).
Proof.
  apply (writes_need_the_right_visitor
           sample_data_required sample_is_url sample_is_email
           sample_generate_password_hash sample_check_password_hash
           (E_show_post 1) (request_of POST comment_fields)
           (world_of sample_store (Some 2))).
  intros H. vm_compute in H. discriminate H.
Defined.

(** X2 at the sample store: the administrator deletes post 1. *)
Lemma only_admin_changes_posts_witness :
  (E_delete_post 1 = E_add_new_post
   \/ exists pid, E_delete_post 1 = E_delete_post pid)
  /\ exists u, visitor (world_of sample_store (Some 1)) = Some u
               /\ User.id u = 1.
Proof.
  apply (only_admin_changes_posts
           sample_data_required sample_is_url sample_is_email
           sample_generate_password_hash sample_check_password_hash
           (E_delete_post 1) (request_of GET [])
           (world_of sample_store (Some 1))).
  intros H. vm_compute in H. discriminate H.
Defined.

(** X5 at the sample store: a fresh email is registered. *)
Lemma write_needs_post_and_csrf_witness :
  (exists pid, E_register = E_delete_post pid)
  \/ (method (request_of POST (user_fields "b@x.com" "pw2" "Bea")) = POST
      /\ csrf_valid (request_of POST (user_fields "b@x.com" "pw2" "Bea"))
         = true).
Proof.
  apply (write_needs_post_and_csrf
           sample_data_required sample_is_url sample_is_email
           sample_generate_password_hash sample_check_password_hash
           E_register (request_of POST (user_fields "b@x.com" "pw2" "Bea"))
           (world_of sample_store None)).
  intros H. vm_compute in H. discriminate H.
Defined.

(** X7 at the sample store: an anonymous visitor and the second user ask
    for the logout route. *)
Lemma logout_needs_login_witness :
  sample_handle_request E_logout (request_of GET [])
    (world_of sample_store None)
  = (HTTPError 401, world_of sample_store None)
  /\ sample_handle_request E_logout (request_of GET [])
       (world_of sample_store (Some 2))
     = (redirect E_get_all_posts, world_of sample_store None).
Proof.
  split.
  - exact (proj1 (logout_needs_login
             sample_data_required sample_is_url sample_is_email
             sample_generate_password_hash sample_check_password_hash
             (request_of GET []) (world_of sample_store None) eq_refl)
             eq_refl).
  - exact (proj1 (proj2 (logout_needs_login
             sample_data_required sample_is_url sample_is_email
             sample_generate_password_hash sample_check_password_hash
             (request_of GET []) (world_of sample_store (Some 2)) eq_refl)
             second_user eq_refl)).
Defined.

(** X8 at the sample store: the second user logs in and out. *)
Lemma login_then_logout_witness :
  let w1 := snd (sample_handle_request E_login
                   (request_of POST (user_fields "a@x.com" "pw" ""))
                   (world_of sample_store None)) in
  visitor w1 = Some second_user
  /\ visitor (snd (sample_handle_request E_logout (request_of GET []) w1))
     = None.
Proof.
  pose proof (login_then_logout
                sample_data_required sample_is_url sample_is_email
                sample_generate_password_hash sample_check_password_hash
                (request_of POST (user_fields "a@x.com" "pw" ""))
                (request_of GET []) (world_of sample_store None) second_user
                eq_refl eq_refl eq_refl eq_refl eq_refl eq_refl) as H.
  cbv zeta in H. destruct H as (H1 & _ & H2 & _).
  cbv zeta. split; [exact H1 | exact H2].
Defined.

(** X9 at the sample store: the administrator creates a second post. *)
Lemma add_new_post_publishes_witness :
  blog_posts (committed (snd (sample_handle_request E_add_new_post
                (request_of POST (post_fields "http://x.com/new.png"))
                (world_of sample_store (Some 1)))))
  = [first_post;
     BlogPost.mk 2 (Some 1) "Second" "More" "March 05, 2024" "<p>more</p>"
       "http://x.com/new.png"].
Proof.
  pose proof (add_new_post_publishes
                sample_data_required sample_is_url sample_is_email
                sample_generate_password_hash sample_check_password_hash
                (request_of POST (post_fields "http://x.com/new.png"))
                (world_of sample_store (Some 1)) admin_user
                eq_refl eq_refl eq_refl eq_refl eq_refl eq_refl) as H.
  cbv zeta in H. destruct H as (_ & H & _). exact H.
Defined.

(** X10 at the sample store: the administrator submits the title of
    post 1 again. *)
Lemma add_new_post_duplicate_title_is_500_witness :
  sample_handle_request E_add_new_post
    (request_of POST [ ("title", "Hello"); ("subtitle", "Again");
                       ("img_url", "http://x.com/a.png");
                       ("body", "<p>again</p>") ])
    (world_of sample_store (Some 1))
  = (HTTPError 500, world_of sample_store (Some 1)).
Proof.
  exact (add_new_post_duplicate_title_is_500
           sample_data_required sample_is_url sample_is_email
           sample_generate_password_hash sample_check_password_hash
           (request_of POST [ ("title", "Hello"); ("subtitle", "Again");
                              ("img_url", "http://x.com/a.png");
                              ("body", "<p>again</p>") ])
           (world_of sample_store (Some 1)) admin_user
           eq_refl eq_refl eq_refl eq_refl eq_refl).
Defined.

(** X11 at the sample store: the administrator deletes post 1 twice. *)
Lemma delete_twice_witness :
  let w1 := snd (sample_handle_request (E_delete_post 1) (request_of GET [])
                   (world_of sample_store (Some 1))) in
  fst (sample_handle_request (E_delete_post 1) (request_of GET []) w1)
  = HTTPError 500.
Proof.
  pose proof (delete_twice
                sample_data_required sample_is_url sample_is_email
                sample_generate_password_hash sample_check_password_hash
                1 (request_of GET []) (world_of sample_store (Some 1))
                admin_user first_post
                eq_refl eq_refl eq_refl eq_refl eq_refl) as H.
  cbv zeta in H. destruct H as (_ & _ & H & _).
  cbv zeta. unfold sample_handle_request. now rewrite H.
Defined.

(** X12 at the sample store: an anonymous visitor reads the list, the page
    of post 1 and the page of an id the store cannot hold. *)
Lemma public_pages_change_nothing_witness :
  sample_serve E_get_all_posts (request_of GET [])
    (world_of sample_store None)
  = (render_template "index.html" (ctx_all_posts [first_post]),
     world_of sample_store None)
  /\ sample_serve (E_show_post 1) (request_of GET [])
       (world_of sample_store None)
     = (render_template "post.html"
          (ctx_post (Some first_post) CreateCommentForm),
        world_of sample_store None)
  /\ sample_serve (E_show_post large_key) (request_of GET [])
       (world_of sample_store None)
     = (HTTPError 500, world_of sample_store None).
Proof.
  pose proof (public_pages_change_nothing
                sample_data_required sample_is_url sample_is_email
                sample_generate_password_hash sample_check_password_hash
                (request_of GET []) (world_of sample_store None) eq_refl)
    as H.
  destruct H as (Hlist & Hfit & Hbig & _).
  split; [exact Hlist|]. split.
  - exact (Hfit 1 eq_refl).
  - exact (Hbig large_key large_key_unstorable).
Defined.

(** X13 on a database with a user, a post and a comment: from the empty
    database the first user registers, logs in, creates a post and comments
    on it; then the post is deleted and the comment stays without it. *)
Lemma reachable_references_resolve_witness :
  let rreq := request_of POST (user_fields "a@x.com" "pw" "Al") in
  let preq := request_of POST (post_fields "http://x.com/new.png") in
  let creq := request_of POST comment_fields in
  let w1 := snd (sample_handle_request E_register rreq initial_world) in
  let w2 := snd (sample_handle_request E_login rreq w1) in
  let w3 := snd (sample_handle_request E_add_new_post preq w2) in
  let w4 := snd (sample_handle_request (E_show_post 1) creq w3) in
  let w5 := snd (sample_handle_request (E_delete_post 1)
                   (request_of GET []) w4) in
  (map BlogPost.author_id (blog_posts (committed w4)) = [Some 1]
   /\ comments (committed w4) = [Comment.mk 1 (Some 1) (Some 1) "Hi"]
   /\ references_resolve (committed w4) = true)
  /\ (blog_posts (committed w5) = []
      /\ comments (committed w5) = [Comment.mk 1 (Some 1) None "Hi"]
      /\ references_resolve (committed w5) = true).
Proof.
  cbv zeta. unfold sample_handle_request. split.
  - split; [reflexivity|]. split; [reflexivity|].
    refine (proj1 (reachable_references_resolve
              sample_data_required sample_is_url sample_is_email
              sample_generate_password_hash sample_check_password_hash _ _)).
    repeat apply reachable_request. apply reachable_initial.
  - split; [reflexivity|]. split; [reflexivity|].
    refine (proj1 (reachable_references_resolve
              sample_data_required sample_is_url sample_is_email
              sample_generate_password_hash sample_check_password_hash _ _)).
    repeat apply reachable_request. apply reachable_initial.
Defined.

(** X14 after the first registration on the empty database. *)

Lemma reachable_user_keys_count_up_witness :
  map User.id
    (users (committed (snd (sample_handle_request E_register
                              (request_of POST (user_fields "a@x.com" "pw" "Al"))
                              initial_world)))) = [1].
Proof.
  exact (proj1 (reachable_user_keys_count_up
           sample_data_required sample_is_url sample_is_email
           sample_generate_password_hash sample_check_password_hash _
           (reachable_request
              sample_data_required sample_is_url sample_is_email
              sample_generate_password_hash sample_check_password_hash
              E_register (request_of POST (user_fields "a@x.com" "pw" "Al"))
              initial_world
              (reachable_initial
                 sample_data_required sample_is_url sample_is_email
                 sample_generate_password_hash sample_check_password_hash)))).
Defined.

(** X15 on the empty database: register, log in, create a post. *)
Lemma first_user_is_administrator_witness :
  let rreq := request_of POST (user_fields "a@x.com" "pw" "Al") in
  let preq := request_of POST (post_fields "http://x.com/new.png") in
  let w1 := snd (sample_handle_request E_register rreq initial_world) in
  let w2 := snd (sample_handle_request E_login rreq w1) in
  visitor w2 = Some (User.mk 1 "a@x.com" "salt1234$pw" "Al")
  /\ fst (sample_handle_request E_add_new_post preq w2)
     = redirect E_get_all_posts.
Proof.
  pose proof (first_user_is_administrator
                sample_data_required sample_is_url sample_is_email
                sample_generate_password_hash sample_check_password_hash
                (request_of POST (user_fields "a@x.com" "pw" "Al"))
                (request_of POST (user_fields "a@x.com" "pw" "Al"))
                (request_of POST (post_fields "http://x.com/new.png"))
                initial_world
                eq_refl eq_refl eq_refl eq_refl eq_refl eq_refl eq_refl
                eq_refl eq_refl eq_refl eq_refl) as H.
  cbv zeta in H. destruct H as (_ & H1 & H2 & _).
  cbv zeta. split; [exact H1 | exact H2].
Defined.

(** X16 at the sample store: a third user registers, logs in and asks for
    the create-post route. *)
Lemma later_users_get_500_witness :
  let rreq := request_of POST (user_fields "b@x.com" "pw2" "Bea") in
  let w1 := snd (sample_handle_request E_register rreq
                   (world_of sample_store None)) in
  let w2 := snd (sample_handle_request E_login rreq w1) in
  fst (sample_handle_request E_add_new_post
         (request_of POST (post_fields "http://x.com/new.png")) w2)
  = HTTPError 500.
Proof.
  pose proof (later_users_get_500
                sample_data_required sample_is_url sample_is_email
                sample_generate_password_hash sample_check_password_hash
                (request_of POST (user_fields "b@x.com" "pw2" "Bea"))
                (request_of POST (user_fields "b@x.com" "pw2" "Bea"))
                (request_of POST (post_fields "http://x.com/new.png"))
                (world_of sample_store None) admin_user E_add_new_post _
                eq_refl eq_refl eq_refl eq_refl eq_refl eq_refl eq_refl
                eq_refl eq_refl eq_refl eq_refl) as H.
  cbv zeta in H. destruct H as (_ & H).
  cbv zeta. unfold sample_handle_request. now rewrite H.
Defined.

(** X17 on the login form: a submission without an email. *)
Lemma missing_field_fails_validation_witness :
  sample_validate LoginForm (request_of POST [ ("password", "pw") ]) = false.
Proof.
  exact (proj1 (missing_field_fails_validation
           sample_data_required sample_is_url sample_is_email
           LoginForm "email" DataRequired [Email]
           (request_of POST [ ("password", "pw") ])
           (or_introl eq_refl) eq_refl)).
Defined.
